(** * Taskun R08 replay host: menu paging, replay engine and supervisor

    A shallow embedding of [taskun_r08.py] and of the display driver
    [oled_display.py].  Python integers are [Z],
    byte strings are [list byte], path names are [string].  Function
    attributes ([_show_oled_menu.current_start_idx],
    [run_playback.timeout_count]) are [option] fields: [None] stands for
    "attribute not created yet", which is what [hasattr] tests.  Every
    input the program takes from outside (device bytes, signals, the stop
    file, keys, joystick events, child liveness) is an explicit argument,
    and every effect it has on the outside is an entry of a trace. *)

From Stdlib Require Import ZArith List Bool String Ascii Lia.
From Stdlib Require Import Strings.Byte.
From Stdlib Require Import Sorted Permutation DecimalString.
Import ListNotations.
Local Open Scope Z_scope.

(** ** Navigation menu *)

Module Menu.

Local Open Scope string_scope.
Local Open Scope Z_scope.

(** [os.path.basename] on POSIX paths: what follows the last slash. *)
Fixpoint basename_from (acc s : string) : string :=
  match s with
  | EmptyString => acc
  | String c r =>
      if Ascii.eqb c "/"%char then basename_from EmptyString r
      else basename_from (acc ++ String c EmptyString) r
  end.

Definition basename (s : string) : string := basename_from EmptyString s.

Definition window_size : Z := 8.

(** Attributes stored on the function object [_show_oled_menu]. *)
Record Attrs := mkAttrs {
  current_start_idx : option Z;
  last_displayed_items : list string
}.

Definition no_attrs : Attrs := mkAttrs None [].

(** Calls made to the display and the console. *)
Inductive Render :=
| Console (line1 line2 : string)
| ConsoleTotal (total : Z) (line2 : string)
| ShowStatusNoFiles
| ShowMenuWindow (filenames : list string) (idx start_idx : Z)
| UpdateCounterOnly (idx total : Z)
| MoveSelectionMarker (old_line new_line start_idx : Z)
| UpdateMenuSelectionWindow (old_idx idx start_idx : Z).

(** Python slice [l[a:b]] for non-negative bounds. *)
Definition slice {A} (l : list A) (a b : Z) : list A :=
  firstn (Z.to_nat (b - a)) (skipn (Z.to_nat a) l).

Definition len {A} (l : list A) : Z := Z.of_nat (List.length l).

(** The window start the function works with once the [hasattr]
    initialisation has run. *)
Definition start_of (a : Attrs) : Z :=
  match current_start_idx a with
  | Some s => s
  | None => 0
  end.

(** The paging decision of [_show_oled_menu]: the new window start and
    whether a full redraw is needed. *)
Definition page (total current_start idx : Z) (old_idx : option Z)
  : Z * bool :=
  let current_end := current_start + window_size in
  match old_idx with
  | None => (current_start, true)
  | Some _ =>
      if idx <? current_start then
        ((if idx <? window_size then 0
          else Z.max 0 (idx - (window_size - 2))), true)
      else if idx >=? current_end then
        ((if idx >=? total - window_size
          then Z.max 0 (total - window_size)
          else Z.max 0 (idx - 1)), true)
      else (current_start, false)
  end.

(** [_show_oled_menu(files, idx, header, old_idx)].  [oled] is the
    test [oled_display and OLED_AVAILABLE]. *)
Definition _show_oled_menu (oled : bool) (a : Attrs)
    (files : list string) (idx : Z) (old_idx : option Z)
  : Attrs * list Render :=
  if negb oled then (a, [])
  else
    match files with
    | [] => (a, [ShowStatusNoFiles])
    | _ :: _ =>
        let filenames := map basename files in
        let a0 :=
          match current_start_idx a with
          | None => mkAttrs (Some 0) []
          | Some _ => a
          end in
        let current_start := start_of a0 in
        let '(start_idx, need_full_redraw) :=
          page (len filenames) current_start idx old_idx in
        if need_full_redraw then
          (mkAttrs (Some start_idx)
                   (slice filenames start_idx (start_idx + window_size)),
           [ShowMenuWindow filenames idx start_idx])
        else
          let old_line :=
            match old_idx with
            | Some o => o - start_idx + 1
            | None => 0
            end in
          let new_line := idx - start_idx + 1 in
          (mkAttrs (Some start_idx) (last_displayed_items a0),
           UpdateCounterOnly idx (len filenames)
           :: (if (1 <=? old_line) && (old_line <=? 8)
                  && (1 <=? new_line) && (new_line <=? 8)
               then [MoveSelectionMarker old_line new_line start_idx]
               else [UpdateMenuSelectionWindow
                       (match old_idx with Some o => o | None => 0 end)
                       idx start_idx]))
    end.

(** The part of [_minimal_menu]'s state that navigation touches. *)
Record Nav := mkNav {
  menu_items : list string;
  idx : Z;
  attrs : Attrs
}.

(** The inner function [draw(header, old_idx)]. *)
Definition draw (oled : bool) (n : Nav) (header : option string)
    (old_idx : option Z) : Nav * list Render :=
  match menu_items n with
  | [] =>
      let '(a, r) := _show_oled_menu oled (attrs n) [] (idx n) old_idx in
      (mkNav (menu_items n) (idx n) a,
       Console "Taskun: 0 items (q=quit)" "No .r08 files found" :: r)
  | _ :: _ =>
      let name := basename (nth (Z.to_nat (idx n)) (menu_items n) "") in
      let display_names := map basename (menu_items n) in
      let '(a, r) :=
        _show_oled_menu oled (attrs n) display_names (idx n) old_idx in
      (mkNav (menu_items n) (idx n) a,
       match header with
       | Some h => Console (substring 0 32 h) (substring 0 80 ("> " ++ name))
       | None =>
           ConsoleTotal (len (menu_items n)) (substring 0 80 ("> " ++ name))
       end :: r)
  end.

Inductive Direction := Up | Down.

Definition delta (d : Direction) : Z :=
  match d with Up => -1 | Down => 1 end.

(** The [up] and [down] branches of the menu loop. *)
Definition navigate (oled : bool) (d : Direction) (n : Nav)
  : Nav * list Render :=
  match menu_items n with
  | [] => (n, [])
  | _ :: _ =>
      let old_idx := idx n in
      let idx' := (idx n + delta d) mod len (menu_items n) in
      draw oled (mkNav (menu_items n) idx' (attrs n)) None (Some old_idx)
  end.

(** State of the menu when its loop starts: [idx = 0] and the first
    [draw('Select option (w/s + Enter)')]. *)
Definition menu_start (oled : bool) (files : list string)
  : Nav * list Render :=
  draw oled (mkNav files 0 no_attrs)
       (Some "Select option (w/s + Enter)") None.

Definition window_start (n : Nav) : Z := start_of (attrs n).

End Menu.

(** ** Replay engine: [run_playback] and what it calls *)

Module Replay.

Local Open Scope string_scope.
Local Open Scope list_scope.
Local Open Scope Z_scope.

Definition STOP_FILE : string := "/tmp/taskun_stop".

(** Events queued by [_JoystickReader]. *)
Inductive JsEvent := JsUp | JsDown | JsSelect | JsStop.

(** What the program prints, one constructor per message that formats
    a value; the fixed messages are [Note]s. *)
Inductive Msg :=
| Note (text : string)
| NotReady (data : option byte)
| FileOpened (file_size : Z)
| StoppedTimeout (count latches pos size remaining : Z)
| StoppedEOF (latches pos : Z)
| Progress (latches pos : Z)
| StoppedInterrupt (latches pos : Z)
| Unexpected (cmd : byte) (latches pos : Z) (last : option (list byte))
| StoppedNoRequest (latches pos size frames_left : Z) (cmd : option byte)
| Summary (latches expected frames_left : Z).

(** Effects on the outside world, in program order. *)
Inductive Event :=
| Print (m : Msg)
| SerOpen (port : string) (baud timeout_ms : Z)
| SerWrite (data : list byte)
| SerRead (data : option byte)
| SerClose
| FileOpen (path : string) (bz2 : bool) (ok : bool)
| FileRead (size : Z) (data : list byte)
| FileClose
| Sleep (ms : Z)
| StopFileRemove
| JoyStart
| JoyStop
| ResetCall (port : string).

(** *** The recording file object *)

Record File := mkFile { f_data : list byte; f_pos : nat }.

Definition f_size (f : File) : Z := Z.of_nat (List.length (f_data f)).
Definition f_tell (f : File) : Z := Z.of_nat (f_pos f).

(** [f.seek(0, 2)]: moves to the end; the call's value is [f_size]. *)
Definition f_seek_end (f : File) : File :=
  mkFile (f_data f) (List.length (f_data f)).

(** [f.seek(0)]. *)
Definition f_rewind (f : File) : File := mkFile (f_data f) 0.

(** [f.read(size)]: at most [size] bytes from the cursor, everything
    that is left when [size] is negative. *)
Definition f_read (size : Z) (f : File) : list byte * File :=
  let rest := skipn (f_pos f) (f_data f) in
  let chunk := if size <? 0 then rest else firstn (Z.to_nat size) rest in
  (chunk, mkFile (f_data f) (f_pos f + List.length chunk)).

(** *** Protocol constants *)

Definition PING : byte := "255"%byte.
Definition RESET : byte := "000"%byte.
Definition REQUEST : byte := "015"%byte.

(** [b'\x01\x01\x02\x01\x00\x01\x00'] *)
Definition START_COMMAND : list byte :=
  ["001"; "001"; "002"; "001"; "000"; "001"; "000"]%byte.

(** [[0]*n] and [bytes(n)]: empty when [n <= 0]. *)
Definition zeros (n : Z) : list byte := repeat "000"%byte (Z.to_nat n).

Definition len {A} (l : list A) : Z := Z.of_nat (List.length l).

(** *** State of the read loop: the locals of [run_playback], the
    function attribute [timeout_count] and the global
    [shutdown_requested]. *)

Record Loop := mkLoop {
  latches : Z;
  extra : Z;
  f : File;
  cmd : option byte;
  inputs : option (list byte);
  timeout_count : option Z;
  shutdown_requested : bool
}.

Definition set_latches (v : Z) (s : Loop) : Loop :=
  mkLoop v (extra s) (f s) (cmd s) (inputs s) (timeout_count s)
         (shutdown_requested s).
Definition set_extra (v : Z) (s : Loop) : Loop :=
  mkLoop (latches s) v (f s) (cmd s) (inputs s) (timeout_count s)
         (shutdown_requested s).
Definition set_f (v : File) (s : Loop) : Loop :=
  mkLoop (latches s) (extra s) v (cmd s) (inputs s) (timeout_count s)
         (shutdown_requested s).
Definition set_cmd (v : option byte) (s : Loop) : Loop :=
  mkLoop (latches s) (extra s) (f s) v (inputs s) (timeout_count s)
         (shutdown_requested s).
Definition set_inputs (v : option (list byte)) (s : Loop) : Loop :=
  mkLoop (latches s) (extra s) (f s) (cmd s) v (timeout_count s)
         (shutdown_requested s).
Definition set_timeout_count (v : option Z) (s : Loop) : Loop :=
  mkLoop (latches s) (extra s) (f s) (cmd s) (inputs s) v
         (shutdown_requested s).
Definition set_shutdown (v : bool) (s : Loop) : Loop :=
  mkLoop (latches s) (extra s) (f s) (cmd s) (inputs s) (timeout_count s)
         v.

(** [signal_handler].  In the replay process [oled_display] is [None]
    ([_init_oled_display] runs only in the menu), so
    [_cleanup_oled_display] does nothing there. *)
Definition signal_handler (s : Loop) : Loop * list Event :=
  (set_shutdown true s,
   [Print (Note "--- Shutdown signal received, stopping playback...")]).

(** A point of the program at which a pending signal, if any, is
    handled. *)
Definition deliver (sig : bool) (s : Loop) : Loop * list Event :=
  if sig then signal_handler s else (s, []).

(** [check_stop_file]; [present] is [os.path.exists(STOP_FILE)]. *)
Definition check_stop_file (present : bool) (s : Loop)
  : Loop * list Event :=
  if present then
    (set_shutdown true s,
     [Print (Note "--- Stop file detected, stopping playback...");
      StopFileRemove])
  else (s, []).

(** The terminal states the loop can end in, and how one pass through
    the loop body leaves it. *)
Inductive Terminal := Completed | Interrupted | DeviceError.
Inductive Flow := Next | Break (t : Terminal).

(** What one pass of the loop takes from outside. *)
Record Iter := mkIter {
  sig_head : bool;      (* a signal was handled before the [while] test *)
  sig_read : bool;      (* a signal was handled while [ser.read()] waited *)
  dev : option byte;    (* [ser.read()]: [None] is a timeout *)
  stop_file : bool      (* [STOP_FILE] exists when it is looked for *)
}.

(** The branch [if not cmd]. *)
Definition on_timeout (s : Loop) : Loop * list Event * Flow :=
  let c := match timeout_count s with Some c => c | None => 0 end + 1 in
  let s1 := set_timeout_count (Some c) s in
  if c >? 10 then
    let pos := f_tell (f s1) in
    let f1 := f_seek_end (f s1) in
    (set_f f1 s1,
     [Print (StoppedTimeout c (latches s1) pos (f_size f1)
                            (f_size f1 - f_tell f1))],
     Break DeviceError)
  else (s1, [], Next).

(** [latches = latches + 30] and the progress message. *)
Definition advance (s : Loop) : Loop * list Event :=
  let l := latches s + 30 in
  (set_latches l s,
   if l mod 600 =? 0 then [Print (Progress l (f_tell (f s)))] else []).

(** The branch [if cmd == b'\x0F']. *)
Definition serve (s : Loop) : Loop * list Event * Flow :=
  if extra s >? 0 then
    let '(inp, f1) := f_read (60 - extra s * 2) (f s) in
    let tmp := zeros (extra s * 2) ++ inp in
    let response_data := REQUEST :: tmp in
    let s1 := set_extra 0 (set_inputs (Some inp) (set_f f1 s)) in
    let '(s2, t) := advance s1 in
    (s2, FileRead (60 - extra s * 2) inp :: SerWrite response_data :: t,
     Next)
  else
    let '(inp, f1) := f_read 60 (f s) in
    let s1 := set_inputs (Some inp) (set_f f1 s) in
    match inp with
    | [] =>
        (s1, [FileRead 60 inp;
              Print (StoppedEOF (latches s1) (f_tell f1))],
         Break Completed)
    | _ :: _ =>
        let padded :=
          if len inp <? 60 then inp ++ zeros (60 - len inp) else inp in
        let response_data := REQUEST :: padded in
        let s2 := set_inputs (Some padded) s1 in
        let '(s3, t) := advance s2 in
        (s3, FileRead 60 inp :: SerWrite response_data :: t, Next)
    end.

(** The end of the loop body: the stop-file poll, the interrupt test
    and the warning about an unexpected byte. *)
Definition after_command (present : bool) (b : byte) (s : Loop)
  : Loop * list Event * Flow :=
  let '(s1, t1) :=
    if latches s mod 100 =? 0 then check_stop_file present s
    else (s, []) in
  if shutdown_requested s1 then
    (s1, t1 ++ [Print (StoppedInterrupt (latches s1) (f_tell (f s1)))],
     Break Interrupted)
  else if negb (Byte.eqb b REQUEST) then
    (s1, t1 ++ [Print (Unexpected b (latches s1) (f_tell (f s1))
                                  (inputs s1))], Next)
  else (s1, t1, Next).

(** One evaluation of the [while] test followed, when it holds, by the
    loop body. *)
Definition iteration (e : Iter) (s : Loop) : Loop * list Event * Flow :=
  let '(s0, t0) := deliver (sig_head e) s in
  if shutdown_requested s0 then (s0, t0, Break Interrupted)
  else
    let '(s1, t1) := deliver (sig_read e) s0 in
    match dev e with
    | None =>
        let '(s2, t2, fl) := on_timeout (set_cmd None s1) in
        (s2, t0 ++ t1 ++ SerRead None :: t2, fl)
    | Some b =>
        let s2 := set_timeout_count (Some 0) (set_cmd (Some b) s1) in
        let '(s3, t3, fl) :=
          if Byte.eqb b REQUEST then serve s2 else (s2, [], Next) in
        match fl with
        | Break t => (s3, t0 ++ t1 ++ SerRead (Some b) :: t3, Break t)
        | Next =>
            let '(s4, t4, fl4) := after_command (stop_file e) b s3 in
            (s4, t0 ++ t1 ++ SerRead (Some b) :: t3 ++ t4, fl4)
        end
    end.

(** The [while] loop, run over the passes the outside world provides.
    [None]: the loop is still running when they are used up. *)
Fixpoint read_loop (es : list Iter) (s : Loop)
  : Loop * list Event * option Terminal :=
  match es with
  | [] => (s, [], None)
  | e :: es' =>
      let '(s1, t1, fl) := iteration e s in
      match fl with
      | Break t => (s1, t1, Some t)
      | Next =>
          let '(s2, t2, r) := read_loop es' s1 in
          (s2, t1 ++ t2, r)
      end
  end.

(** *** The whole of [run_playback] *)

(** [str.lower] on the ASCII letters, which is all [is_bz2] needs. *)
Definition lower (c : ascii) : ascii :=
  let n := nat_of_ascii c in
  if ((65 <=? n) && (n <=? 90))%nat then ascii_of_nat (n + 32) else c.

Fixpoint lower_string (s : string) : string :=
  match s with
  | EmptyString => EmptyString
  | String c r => String (lower c) (lower_string r)
  end.

(** [filename[-3:].lower() == "bz2"] *)
Definition is_bz2 (filename : string) : bool :=
  String.eqb
    (lower_string (substring (String.length filename - 3) 3 filename))
    "bz2".

(** One pass of the loop that waits for button B after a natural end. *)
Record Wait := mkWait {
  w_sig : bool;
  w_ch : option ascii;
  w_evt : option JsEvent
}.

Definition is_stop (e : option JsEvent) : bool :=
  match e with Some JsStop => true | _ => false end.

Definition key_in (c : option ascii) (l : list ascii) : bool :=
  match c with
  | Some c => existsb (Ascii.eqb c) l
  | None => false
  end.

(** The [while True] loop of the wait; [false] when it is still
    waiting after the passes provided. *)
Fixpoint wait_for_button (ws : list Wait) (s : Loop)
  : Loop * list Event * bool :=
  match ws with
  | [] => (s, [], false)
  | w :: ws' =>
      let '(s1, t1) := deliver (w_sig w) s in
      if is_stop (w_evt w) || key_in (w_ch w) ["q"; "Q"; "b"; "B"]%char
      then (s1, t1, true)
      else if shutdown_requested s1 then (s1, t1, true)
      else
        let '(s2, t2, d) := wait_for_button ws' s1 in
        (s2, t1 ++ Sleep 20 :: t2, d)
  end.

(** [_reset_cy8ckit_device(port)], the device reset procedure.
    [opens] says whether [serial.Serial] succeeds; any exception is
    caught and reported. *)
Definition _reset_cy8ckit_device (opens : bool) (port : string)
  : list Event * bool :=
  if opens then
    ([ResetCall port; SerOpen port 2000000 100; SerWrite [RESET];
      Sleep 100; SerClose; Print (Note "--- CY8CKIT-059 device reset")],
     true)
  else
    ([ResetCall port;
      Print (Note "--- Warning: Could not reset CY8CKIT-059 device")],
     false).

(** Everything [run_playback] takes from outside. *)
Record World := mkWorld {
  serial_opens : bool;
  ping_reply : option byte;
  open_recording : string -> bool -> option (list byte);
  iters : list Iter;
  sig_after_loop : bool;
  waits : list Wait;
  reset_opens : bool
}.

(** Which [return] the function left by; for a return after the loop,
    how the loop ended and the final value of [latches]. *)
Inductive Outcome :=
| Usage
| PortFailed
| DeviceNotReady (data : option byte)
| FileError
| Finished (t : Terminal) (latches : Z).

Definition exit_code (o : Outcome) : Z :=
  match o with
  | Usage => 1
  | PortFailed => 2
  | DeviceNotReady _ => 2
  | FileError => 3
  | Finished _ _ => 0
  end.

(** Locals before the loop: [latches = 0], [skip = 0], [extra = 0];
    the loop [for n in range(0, skip)] reads nothing. *)
Definition skip : Z := 0.

Definition loop_start (data : list byte) : Loop :=
  let f0 := f_rewind (f_seek_end (mkFile data 0)) in
  let f1 := Nat.iter (Z.to_nat skip) (fun g => snd (f_read 2 g)) f0 in
  mkLoop 0 0 f1 None None None false.

(** From the first line after the loop to [return 0]; [false] when the
    wait for button B has not ended. *)
Definition finish (w : World) (port : string) (s : Loop)
  : list Event * bool :=
  let '(s0, t0) := deliver (sig_after_loop w) s in
  let '(s1, t1) :=
    if negb (shutdown_requested s0) then
      let pos := f_tell (f s0) in
      let f1 := f_seek_end (f s0) in
      (set_f f1 s0,
       if pos <? f_size f1 then
         [Print (StoppedNoRequest (latches s0) (f_tell f1) (f_size f1)
                                  ((f_size f1 - f_tell f1) / 2) (cmd s0))]
       else [])
    else (s0, []) in
  let f2 := f_seek_end (f s1) in
  let t2 :=
    [Print (Summary (latches s1) (f_size f2 / 2)
                    ((f_size f2 - f_tell f2) / 2));
     Print (Note "--- Cleaning up...");
     FileClose] in
  let '(t3, done) :=
    if negb (shutdown_requested s1) then
      let '(_, tw, d) := wait_for_button (waits w) s1 in
      ([Print (Note "--- TAS data transmission complete");
        Print (Note "--- Press B button to return to main menu");
        JoyStart;
        Print (Note "--- Waiting for button press...")]
         ++ tw ++ (if d then [JoyStop] else []), d)
    else ([Print (Note "--- Playback interrupted by user")], true) in
  if done then
    (t0 ++ t1 ++ t2 ++ t3
        ++ [Print (Note "--- Resetting device..."); SerWrite [RESET];
            Sleep 100; SerClose]
        ++ fst (_reset_cy8ckit_device (reset_opens w) port)
        ++ [Print (Note "--- Shutdown complete")],
     true)
  else (t0 ++ t1 ++ t2 ++ t3, false).

(** What is done between the handshake and the loop once the file is
    open. *)
Definition start_commands (file_size : Z) : list Event :=
  [Print (FileOpened file_size);
   Print (Note "--- Sending reset command to device");
   SerWrite [RESET];
   Sleep 100;
   Print (Note "--- Sending start command to device");
   SerWrite START_COMMAND;
   Print (Note "--- Starting read loop")].

(** [run_playback(port, movie_path)].  The result is [None] when the
    function has not returned within the passes [w] provides. *)
Definition run_playback (w : World) (port : string)
    (movie_path : option string) : list Event * option Outcome :=
  match movie_path with
  | None =>
      ([Print (Note "+++ Starting playback"); Print (Note "Usage")],
       Some Usage)
  | Some filename =>
      if negb (serial_opens w) then
        ([Print (Note "+++ Starting playback");
          Print (Note "+++ Opening serial port");
          Print (Note "!!! Failed to open serial port")],
         Some PortFailed)
      else
        let t_ping :=
          [Print (Note "+++ Starting playback");
           Print (Note "+++ Opening serial port");
           SerOpen port 2000000 500;
           Print (Note "+++ Sending ping command (0xFF)");
           SerWrite [PING];
           SerRead (ping_reply w)] in
        match ping_reply w with
        | Some b =>
            if Byte.eqb b PING then
              match open_recording w filename (is_bz2 filename) with
              | None =>
                  (t_ping
                     ++ [Print (Note "+++ Connected to device");
                         Print (Note "+++ Opening file");
                         FileOpen filename (is_bz2 filename) false;
                         Print (Note "!!! Failed to open file")],
                   Some FileError)
              | Some data =>
                  let s0 := loop_start data in
                  let '(s, t_loop, r) := read_loop (iters w) s0 in
                  let t_run :=
                    t_ping
                      ++ [Print (Note "+++ Connected to device");
                          Print (Note "+++ Opening file");
                          FileOpen filename (is_bz2 filename) true]
                      ++ start_commands (len data) ++ t_loop in
                  match r with
                  | None => (t_run, None)
                  | Some term =>
                      let '(t_end, done) := finish w port s in
                      (t_run ++ t_end,
                       if done then Some (Finished term (latches s))
                       else None)
                  end
              end
            else (t_ping ++ [Print (NotReady (Some b))],
                  Some (DeviceNotReady (Some b)))
        | None => (t_ping ++ [Print (NotReady None)],
                   Some (DeviceNotReady None))
        end
  end.

(** *** Reading a trace *)

Definition written (e : Event) : list (list byte) :=
  match e with SerWrite d => [d] | _ => [] end.

(** The byte strings passed to [ser.write], in order. *)
Definition ser_writes (t : list Event) : list (list byte) :=
  flat_map written t.

Definition is_response (d : list byte) : bool :=
  match d with
  | b :: _ => Byte.eqb b REQUEST
  | [] => false
  end.

(** The answers to [0x0F] requests among the writes. *)
Definition responses (t : list Event) : list (list byte) :=
  filter is_response (ser_writes t).

Definition is_file_open (e : Event) : bool :=
  match e with FileOpen _ _ _ => true | _ => false end.

Definition is_reset_call (e : Event) : bool :=
  match e with ResetCall _ => true | _ => false end.

(** How many times the device reset procedure was entered. *)
Definition reset_calls (t : list Event) : nat :=
  List.length (filter is_reset_call t).

Definition file_read_sizes (t : list Event) : list Z :=
  flat_map (fun e => match e with FileRead n _ => [n] | _ => [] end) t.

Definition file_reads (t : list Event) : list (list byte) :=
  flat_map (fun e => match e with FileRead _ d => [d] | _ => [] end) t.

End Replay.

(** ** Supervisor: the part of [_minimal_menu] that launches a replay,
    watches it and cleans up *)

Module Supervisor.

Import Replay.
Local Open Scope string_scope.
Local Open Scope list_scope.
Local Open Scope Z_scope.

(** Effects of the menu process during one playback attempt. *)
Inductive Action :=
| Lines (line1 line2 : string)
| Draw (header : string)
| OledStatus (line1 : string)
| RemoveStopFile (ok : bool)
| TouchStopFile
| Popen (port path : string)
| SendSigint
| Terminate
| Kill
| WaitExit (timeout_s : Z)
| Nap (ms : Z)
| Device (t : list Event).

(** [('COM3' if os.name == 'nt' else '/dev/ttyACM0')] *)
Definition default_port (nt : bool) : string :=
  if nt then "COM3" else "/dev/ttyACM0".

(** [if os.path.exists(STOP_FILE): os.remove(STOP_FILE)] inside
    [try ... except Exception: pass].  The result says whether the
    file is there afterwards. *)
Definition remove_marker (present ok : bool) : list Action * bool :=
  if present then ([RemoveStopFile ok], negb ok) else ([], false).

(** [_launch_playback(selected)]: the error text when [Popen] raises
    (the text of an exception raised by [Popen] is never empty, so the
    caller's test [if err] holds exactly then). *)
Definition _launch_playback (nt stale ok : bool) (err : option string)
    (selected : string) : list Action * option string :=
  (fst (remove_marker stale ok) ++ [Popen (default_port nt) selected],
   err).

(** One pass of the loop [while proc.poll() is None]. *)
Record Poll := mkPoll {
  p_alive : bool;               (* [proc.poll() is None] at the test *)
  p_ch2 : option ascii;         (* key read from the terminal *)
  p_evt2 : option JsEvent;      (* joystick event *)
  p_shutdown : bool;            (* [shutdown_requested] in the menu *)
  p_lingers : nat               (* later polls that still find the
                                   child alive once it has been told
                                   to stop *)
}.

(** Interrupt, terminate, up to 50 short waits, then kill if the child
    is still there. *)
Definition escalate (lingers : nat) : list Action :=
  [TouchStopFile; SendSigint; Terminate]
    ++ repeat (Nap 20) (Nat.min 50 lingers)
    ++ (if (50 <? lingers)%nat then [Kill] else []).

Definition has_key (c : option ascii) : bool :=
  match c with Some _ => true | None => false end.

(** The monitoring loop; [false] when the child is still running and
    nobody asked to stop after the passes provided. *)
Fixpoint monitor (ps : list Poll) : list Action * bool :=
  match ps with
  | [] => ([], false)
  | p :: ps' =>
      if negb (p_alive p) then ([], true)
      else if p_shutdown p then ([TouchStopFile], true)
      else if has_key (p_ch2 p) || is_stop (p_evt2 p) then
        (escalate (p_lingers p), true)
      else
        let '(t, d) := monitor ps' in
        (Nap 20 :: t, d)
  end.

(** Everything one attempt takes from outside. *)
Record Attempt := mkAttempt {
  nt : bool;
  stale_marker : bool;
  popen_error : option string;
  sup_reset_opens : bool;
  polls : list Poll;
  wait_times_out : bool;
  marker_at_end : bool;
  remove_ok : bool
}.

(** From [_clear_and_print_lines('Launching...', filename)] to the
    redraw of the menu.  The second component is [None] while the
    child is still being watched, otherwise whether [STOP_FILE] exists
    at the end. *)
Definition playback_attempt (a : Attempt) (selected : string)
  : list Action * option bool :=
  let '(t_launch, err) :=
    _launch_playback (nt a) (stale_marker a) (remove_ok a)
                     (popen_error a) selected in
  let t0 := Lines "Launching..." (Menu.basename selected) :: t_launch in
  match err with
  | Some e =>
      (t0 ++ [Draw ("Error: " ++ e)%string;
              Device (fst (_reset_cy8ckit_device (sup_reset_opens a)
                                                 (default_port (nt a))));
              Nap 1000;
              Draw "Select option (w/s + Enter)"],
       Some (snd (remove_marker (stale_marker a) (remove_ok a))))
  | None =>
      let '(t_mon, done) := monitor (polls a) in
      let t1 :=
        t0 ++ [Lines "Playing (press key/B to stop)"
                     (Menu.basename selected);
               OledStatus "REPLAY STARTED:"] ++ t_mon in
      if done then
        let '(t_rm, still_there) :=
          remove_marker (marker_at_end a) (remove_ok a) in
        (t1 ++ WaitExit 2 :: (if wait_times_out a then [Kill] else [])
            ++ t_rm ++ [Draw "Select option (w/s + Enter)"],
         Some still_there)
      else (t1, None)
  end.

Definition device_events (x : Action) : list Event :=
  match x with Device t => t | _ => [] end.

(** Entries into the device reset procedure made by the menu process. *)
Definition supervisor_resets (t : list Action) : nat :=
  reset_calls (flat_map device_events t).

(** Device reset procedure entries of one session: those of the menu
    process and those of the replay process it launched. *)
Definition session_resets (a : Attempt) (w : World) (selected : string)
  : nat :=
  (supervisor_resets (fst (playback_attempt a selected))
   + reset_calls (fst (run_playback w (default_port (nt a))
                                    (Some selected))))%nat.

End Supervisor.

(** ** Scenarios and trace predicates used in the statements below *)

Module Scenario.

Import Replay.
Local Open Scope string_scope.
Local Open Scope list_scope.
Local Open Scope Z_scope.

(** Twenty recordings, the selection at [i], the window at [w]. *)
Definition twenty (i w : Z) : Menu.Nav :=
  Menu.mkNav (repeat "tasmovies/run.r08"%string 20) i (Menu.mkAttrs (Some w) []).

(** A state with a residual offset pending, to run the other branch
    of [serve]. *)
Definition residual_state : Loop :=
  mkLoop 90 2 (mkFile (repeat "007"%byte 100) 60) None None None false.

(** The timeout counter as the timeout branch reads it: an attribute
    that does not exist yet counts as 0. *)
Definition timeouts_so_far (s : Loop) : Z :=
  match timeout_count s with Some c => c | None => 0 end.

(** A pass in which the device stays silent, and one in which it asks
    for data; no signal, no stop file. *)
Definition silence : Iter := mkIter false false None false.
Definition request : Iter := mkIter false false (Some REQUEST) false.

(** [quiet_within limit run es]: entered after [run] timeouts in a row,
    the passes [es] never make it [limit] timeouts in a row. *)
Fixpoint quiet_within (limit run : nat) (es : list Iter) : bool :=
  match es with
  | [] => true
  | e :: es' =>
      match dev e with
      | None => (S run <? limit)%nat && quiet_within limit (S run) es'
      | Some _ => quiet_within limit 0 es'
      end
  end.

(** What [f.read(60)] would return in state [s]. *)
Definition next_chunk (s : Loop) : list byte := fst (f_read 60 (f s)).

(** A chunk followed by zeros up to 60 bytes. *)
Definition padded (chunk : list byte) : list byte :=
  chunk ++ zeros (60 - len chunk).

(** Events other than the summary, the two closes and the entry into
    the device reset procedure. *)
Definition before_end (e : Event) : bool :=
  match e with
  | Print (Summary _ _ _) | FileClose | SerClose | ResetCall _ => false
  | _ => true
  end.

Definition is_summary (e : Event) : bool :=
  match e with Print (Summary _ _ _) => true | _ => false end.

Definition is_file_close (e : Event) : bool :=
  match e with FileClose => true | _ => false end.

Definition is_ser_close (e : Event) : bool :=
  match e with SerClose => true | _ => false end.

(** [precedes p q t]: an event satisfying [q] occurs in [t], and before
    the first of them an event satisfying [p] has occurred. *)
Fixpoint precedes (p q : Event -> bool) (t : list Event) : bool :=
  match t with
  | [] => false
  | e :: t' =>
      if q e then false
      else if p e then existsb q t'
      else precedes p q t'
  end.

(** Events of the wait for button B. *)
Definition wait_event (e : Event) : bool :=
  match e with
  | Print (Note _) | Sleep _ => true
  | _ => false
  end.

(** A session interrupted by a signal before the first read. *)
Definition interrupted_world : World :=
  mkWorld true (Some PING) (fun _ _ => Some (repeat "042"%byte 120))
          [mkIter true false None false] false [] true.

(** What every session does first once the serial port is open. *)
Definition handshake (port : string) (reply : option byte) : list Event :=
  [Print (Note "+++ Starting playback");
   Print (Note "+++ Opening serial port");
   SerOpen port 2000000 500;
   Print (Note "+++ Sending ping command (0xFF)");
   SerWrite [PING];
   SerRead reply].

(** A device that answers the ping with [0x00], and one that answers
    properly in front of a recording that cannot be opened. *)
Definition deaf_world : World :=
  mkWorld true (Some "000"%byte) (fun _ _ => Some []) [] false [] true.

Definition no_file_world : World :=
  mkWorld true (Some PING) (fun _ _ => None) [] false [] true.

(** A launch after which the child is found gone at the first poll. *)
Definition calm_attempt : Supervisor.Attempt :=
  Supervisor.mkAttempt false false None true
    [Supervisor.mkPoll false None None false 0] false false true.

(** A session played to the end of a 120-byte recording and then
    dismissed with button B. *)
Definition full_world : World :=
  mkWorld true (Some PING) (fun _ _ => Some (repeat "042"%byte 120))
          (repeat request 3) false [mkWait false None (Some JsStop)] true.

(** Passes in which the device asks for data, and in which it stays
    silent, whatever else happens in them. *)
Definition is_request (e : Iter) : bool :=
  match dev e with
  | Some b => Byte.eqb b REQUEST
  | None => false
  end.

Definition is_silent (e : Iter) : bool :=
  match dev e with
  | Some _ => false
  | None => true
  end.

(** How many passes of [es] receive a request. *)
Definition requests (es : list Iter) : Z := len (filter is_request es).

(** A request and a silence with the stop file in place. *)
Definition marked_request : Iter := mkIter false false (Some REQUEST) true.
Definition marked_silence : Iter := mkIter false false None true.

(** A request and a silence during which a signal is handled. *)
Definition signalled_request : Iter :=
  mkIter false true (Some REQUEST) false.
Definition signalled_silence : Iter := mkIter false true None false.

(** An attempt in which a key is pressed while the child runs and the
    child is still there after the 50 short waits, so that it is
    killed; the stop file is there at the end. *)
Definition killed_attempt : Supervisor.Attempt :=
  Supervisor.mkAttempt false false None true
    [Supervisor.mkPoll true (Some "x"%char) None false 60]
    false true true.

(** A replay process that is cut off in the middle of the streaming:
    three requests answered out of a recording of 600 bytes. *)
Definition streaming_world : World :=
  mkWorld true (Some PING) (fun _ _ => Some (repeat "042"%byte 600))
          (repeat request 3) false [] true.

End Scenario.

(** ** The menu's reaction to a selection: lines 406-445 of
    [_minimal_menu], up to the launch *)

Module MenuLoop.

Import Replay Supervisor.
Local Open Scope string_scope.
Local Open Scope list_scope.
Local Open Scope Z_scope.

(** One pass of the loop that waits for the console to be set up. *)
Record SetupPoll := mkSetupPoll {
  u_ch : option ascii;
  u_evt : option JsEvent;
  u_shutdown : bool
}.

(** How that loop is left: by [return] (shutdown), by the [break] after
    the redraw (B or q), by the plain [break] (A or Enter), or not yet. *)
Inductive SetupEnd := Returned | Declined | Accepted | StillWaiting.

Definition is_select (e : option JsEvent) : bool :=
  match e with Some JsSelect => true | _ => false end.

(** Line feed and carriage return. *)
Definition enter_keys : list ascii := ["010"; "013"]%char.

(** The [while True] loop of the setup prompt. *)
Fixpoint setup_wait (ps : list SetupPoll) : list Action * SetupEnd :=
  match ps with
  | [] => ([], StillWaiting)
  | p :: ps' =>
      if u_shutdown p then ([], Returned)
      else if is_stop (u_evt p) || key_in (u_ch p) ["q"; "Q"]%char then
        ([Draw "Select option (w/s + Enter)"], Declined)
      else if key_in (u_ch p) enter_keys || is_select (u_evt p) then
        ([], Accepted)
      else
        let '(t, r) := setup_wait ps' in
        (Nap 20 :: t, r)
  end.

(** What the menu does with a selection. *)
Inductive Step :=
| Instructions                  (* [_show_famicom_instructions()] *)
| Prompt                        (* the "Press A to start" line *)
| Sup (a : Action).

(** How the branch ends: the menu function returns, the setup prompt is
    still waiting, or a playback attempt was made (with what
    [playback_attempt] reports). *)
Inductive SelectEnd :=
| MenuReturned
| AtPrompt
| Attempted (r : option bool).

(** The branch taken on Enter or button A, for a non-empty list and
    with [shutdown_requested] not set on entry. *)
Definition select_item (a : Attempt) (ps : list SetupPoll)
    (selected : string) : list Step * SelectEnd :=
  let '(t, e) := setup_wait ps in
  let pre := Instructions :: Prompt :: map Sup t in
  match e with
  | Returned => (pre, MenuReturned)
  | StillWaiting => (pre, AtPrompt)
  | Declined | Accepted =>
      let '(tp, r) := playback_attempt a selected in
      (pre ++ map Sup tp, Attempted r)
  end.

End MenuLoop.

(** ** The joystick reader thread: [_JoystickReader] *)

Module Joystick.

Import Replay.
Local Open Scope list_scope.
Local Open Scope Z_scope.

Definition JS_EVENT_BUTTON : Z := 1.
Definition JS_EVENT_AXIS : Z := 2.
Definition JS_EVENT_INIT : Z := 128.

Definition u8 (b : byte) : Z := Z.of_N (Byte.to_N b).

(** The 8 bytes of one event as the kernel delivers them. *)
Record Frame := mkFrame {
  b0 : byte; b1 : byte; b2 : byte; b3 : byte;
  b4 : byte; b5 : byte; b6 : byte; b7 : byte
}.

(** [struct.unpack('<IhBB', ev)]: little-endian unsigned 32-bit time,
    signed 16-bit value, then type and number, one byte each. *)
Definition unpack (fr : Frame) : Z * Z * Z * Z :=
  let time_ms :=
    u8 (b0 fr) + 256 * u8 (b1 fr) + 65536 * u8 (b2 fr)
    + 16777216 * u8 (b3 fr) in
  let raw := u8 (b4 fr) + 256 * u8 (b5 fr) in
  let value := if raw >=? 32768 then raw - 65536 else raw in
  (time_ms, value, u8 (b6 fr), u8 (b7 fr)).

Section Reader.

(** The values of [time.time()] are floating-point numbers; they and
    the test [(now - self._last_nav_time) > self._nav_cooldown_s] are
    taken as given. *)
Variable T : Type.
Variable cooled : T -> T -> bool.

(** The successive results of [time.time()] in the reader thread. *)
Variable clock : nat -> T.

(** The reader's fields that its loop uses, the local [buf], and the
    number of calls of [time.time()] made so far. *)
Record Reader := mkReader {
  buf : list byte;
  events : list JsEvent;
  _last_nav_time : T;
  ticks : nat
}.

Definition set_buf (l : list byte) (r : Reader) : Reader :=
  mkReader l (events r) (_last_nav_time r) (ticks r).

(** [_put(event_name)]: the event is queued unless 32 are waiting. *)
Definition _put (ev : JsEvent) (r : Reader) : Reader :=
  if (List.length (events r) <? 32)%nat then
    mkReader (buf r) (events r ++ [ev]) (_last_nav_time r) (ticks r)
  else r.

Definition set_last (now : T) (r : Reader) : Reader :=
  mkReader (buf r) (events r) now (ticks r).

(** [get_event()]: the oldest queued event, if any. *)
Definition get_event (r : Reader) : option JsEvent * Reader :=
  match events r with
  | [] => (None, r)
  | e :: q => (Some e, mkReader (buf r) q (_last_nav_time r) (ticks r))
  end.

(** The event type with the INIT flag taken off. *)
Definition plain_type (etype : Z) : Z :=
  if Z.land etype JS_EVENT_INIT =? 0 then etype
  else Z.land etype (Z.lnot JS_EVENT_INIT).

(** The body of the inner loop after [unpack], with [now] read from the
    clock. *)
Definition handle (now : T) (fr : Frame) (r : Reader) : Reader :=
  let '(_, value, etype, number) := unpack fr in
  let etype := plain_type etype in
  if etype =? JS_EVENT_AXIS then
    if (number =? 1) || (number =? 7) then
      if (value <? -15000) && cooled now (_last_nav_time r) then
        set_last now (_put JsUp r)
      else if (value >? 15000) && cooled now (_last_nav_time r) then
        set_last now (_put JsDown r)
      else r
    else r
  else if etype =? JS_EVENT_BUTTON then
    if (number =? 1) && (value =? 1) then _put JsSelect r
    else if (number =? 0) && (value =? 1) then _put JsStop r
    else r
  else r.

Definition tick (r : Reader) : Reader :=
  mkReader (buf r) (events r) (_last_nav_time r) (S (ticks r)).

(** [while len(buf) >= 8]: events are taken off the front of the bytes
    [l] as long as 8 are left; what remains is the new [buf]. *)
Fixpoint drain (l : list byte) (r : Reader) : Reader :=
  match l with
  | c0 :: c1 :: c2 :: c3 :: c4 :: c5 :: c6 :: c7 :: rest =>
      drain rest
            (handle (clock (ticks r))
                    (mkFrame c0 c1 c2 c3 c4 c5 c6 c7) (tick r))
  | _ => set_buf l r
  end.

(** One pass of the outer loop with a chunk read from the device:
    nothing happens on an empty chunk, otherwise [buf += chunk] and the
    inner loop. *)
Definition feed (chunk : list byte) (r : Reader) : Reader :=
  match chunk with
  | [] => r
  | _ :: _ => drain (buf r ++ chunk) r
  end.

End Reader.

Arguments mkReader {T}.
Arguments buf {T}.
Arguments events {T}.
Arguments _last_nav_time {T}.
Arguments ticks {T}.
Arguments set_buf {T}.
Arguments set_last {T}.
Arguments _put {T}.
Arguments get_event {T}.
Arguments tick {T}.
Arguments handle {T}.
Arguments drain {T}.
Arguments feed {T}.

End Joystick.

(** ** Listing the recordings: [_list_replay_files] (and its twin
    [_list_r08_files]) *)

Module Listing.

Local Open Scope string_scope.
Local Open Scope list_scope.

(** [s.endswith(suffix)] *)
Definition endswith (suffix s : string) : bool :=
  let n := String.length s in
  let m := String.length suffix in
  (m <=? n)%nat && String.eqb (substring (n - m) m s) suffix.

Definition startswith_slash (s : string) : bool :=
  match s with
  | String c _ => Ascii.eqb c "/"%char
  | EmptyString => false
  end.

(** [os.path.join(a, b)] on POSIX. *)
Definition join (a b : string) : string :=
  if startswith_slash b then b
  else if String.eqb a "" || endswith "/" a then a ++ b
  else a ++ "/" ++ b.

Section Sorting.

Variable A : Type.
Variable key : A -> string.

(** [list.sort(key=...)] is a stable sort by [<] on the keys; strings
    compare by code point, which for UTF-8 is the order of the bytes.
    An element is put in front of the first one whose key is not
    smaller. *)
Fixpoint insert (x : A) (l : list A) : list A :=
  match l with
  | [] => [x]
  | y :: l' =>
      if String.leb (key x) (key y) then x :: y :: l'
      else y :: insert x l'
  end.

Definition sort_by (l : list A) : list A := fold_right insert [] l.

End Sorting.

Arguments insert {A}.
Arguments sort_by {A}.

Section Files.

(** [str.lower], taken as given. *)
Variable lower : string -> string.

Definition is_r08 (f : string) : bool := endswith ".r08" (lower f).

Definition sort_key (p : string) : string := lower (Menu.basename p).

(** [script_dir] is the directory of the script; [listing] is what
    [os.listdir(tasmovies_dir)] returns, [None] when it raises. *)
Definition _list_replay_files (script_dir : string)
    (listing : option (list string)) : list string :=
  let tasmovies_dir := join script_dir "tasmovies" in
  let files :=
    match listing with
    | Some names => map (join tasmovies_dir) (filter is_r08 names)
    | None => []
    end in
  sort_by sort_key files.

End Files.

End Listing.

(** ** The display driver: [ImprovedOLEDDisplay] of [oled_display.py] *)

Module Display.

Local Open Scope string_scope.
Local Open Scope list_scope.
Local Open Scope Z_scope.

(** What goes over the I2C bus: [write_byte_data(address, 0x00, c)] is
    a command, [write_byte_data(address, 0x40, d)] a data byte.  Each
    method is the list of bus writes it makes, in order; the writes are
    taken to succeed. *)
Inductive Bus :=
| Cmd (c : Z)
| Data (d : Z).

Definition write_cmd (cmd : Z) : list Bus := [Cmd cmd].

Definition write_data (data : Z) : list Bus := [Data data].

Definition write_data_bulk (data_list : list Z) : list Bus :=
  flat_map write_data data_list.

Definition set_position (page col : Z) : list Bus :=
  write_cmd (0xB0 + page)
  ++ write_cmd (0x02 + Z.land col 0x0F)
  ++ write_cmd (0x10 + Z.shiftr col 4).

Definition clear_line (page : Z) : list Bus :=
  if (page <? 0) || (page >? 7) then []
  else set_position page 0 ++ write_data_bulk (repeat 0x00 128).

(** [range(a, b)] *)
Definition range (a b : Z) : list Z :=
  map (fun k => a + Z.of_nat k) (seq 0 (Z.to_nat (b - a))).

(** [clear()]; the field [current_buffer] it resets is read nowhere and
    is left out. *)
Definition clear : list Bus :=
  flat_map (fun page =>
              write_cmd (0xB0 + page) ++ write_cmd 0x02 ++ write_cmd 0x10
              ++ write_data_bulk (repeat 0x00 128))
           (range 0 8).

Definition font_8x6 : list (ascii * list Z) :=
  [ ("A"%char, [0x7E; 0x11; 0x11; 0x7E]);
    ("B"%char, [0x7F; 0x49; 0x49; 0x36]);
    ("C"%char, [0x3E; 0x41; 0x41; 0x22]);
    ("D"%char, [0x7F; 0x41; 0x22; 0x1C]);
    ("E"%char, [0x7F; 0x49; 0x49; 0x41]);
    ("F"%char, [0x7F; 0x09; 0x09; 0x01]);
    ("G"%char, [0x3E; 0x41; 0x49; 0x7A]);
    ("H"%char, [0x7F; 0x08; 0x08; 0x7F]);
    ("I"%char, [0x41; 0x7F; 0x41]);
    ("J"%char, [0x20; 0x40; 0x3F; 0x01]);
    ("K"%char, [0x7F; 0x08; 0x14; 0x63]);
    ("L"%char, [0x7F; 0x40; 0x40; 0x40]);
    ("M"%char, [0x7F; 0x02; 0x0C; 0x02; 0x7F]);
    ("N"%char, [0x7F; 0x04; 0x08; 0x7F]);
    ("O"%char, [0x3E; 0x41; 0x41; 0x3E]);
    ("P"%char, [0x7F; 0x09; 0x09; 0x06]);
    ("Q"%char, [0x3E; 0x41; 0x51; 0x5E]);
    ("R"%char, [0x7F; 0x09; 0x19; 0x66]);
    ("S"%char, [0x46; 0x49; 0x49; 0x31]);
    ("T"%char, [0x01; 0x7F; 0x01]);
    ("U"%char, [0x3F; 0x40; 0x40; 0x3F]);
    ("V"%char, [0x1F; 0x20; 0x40; 0x20; 0x1F]);
    ("W"%char, [0x3F; 0x40; 0x38; 0x40; 0x3F]);
    ("X"%char, [0x63; 0x14; 0x08; 0x14; 0x63]);
    ("Y"%char, [0x07; 0x08; 0x70; 0x08; 0x07]);
    ("Z"%char, [0x61; 0x51; 0x49; 0x45; 0x43]);
    (" "%char, [0x00; 0x00; 0x00]);
    ("!"%char, [0x5F]);
    ("0"%char, [0x3E; 0x51; 0x49; 0x3E]);
    ("1"%char, [0x42; 0x7F; 0x40]);
    ("2"%char, [0x42; 0x61; 0x51; 0x46]);
    ("3"%char, [0x21; 0x45; 0x4B; 0x31]);
    ("4"%char, [0x18; 0x14; 0x12; 0x7F]);
    ("5"%char, [0x27; 0x45; 0x45; 0x39]);
    ("6"%char, [0x3C; 0x4A; 0x49; 0x30]);
    ("7"%char, [0x01; 0x71; 0x09; 0x03]);
    ("8"%char, [0x36; 0x49; 0x49; 0x36]);
    ("9"%char, [0x06; 0x49; 0x29; 0x1E]);
    ("."%char, [0x00]);
    (":"%char, [0x36]);
    ("-"%char, [0x08; 0x08; 0x08]);
    ("_"%char, [0x40; 0x40; 0x40]);
    (">"%char, [0x41; 0x22; 0x14; 0x08]);
    ("<"%char, [0x08; 0x14; 0x22; 0x41]);
    ("="%char, [0x14; 0x14; 0x14]);
    ("+"%char, [0x08; 0x08; 0x3E; 0x08; 0x08]);
    ("/"%char, [0x60; 0x18; 0x06; 0x01]);
    ("*"%char, [0x14; 0x08; 0x3E; 0x08; 0x14]) ].

(** [font_8x6[char]] when [char in font_8x6]. *)
Definition glyph (char : ascii) : option (list Z) :=
  option_map snd (find (fun e => Ascii.eqb (fst e) char) font_8x6).

(** The [str()] of an integer, as an f-string formats it. *)
Definition str_of_int (z : Z) : string :=
  NilZero.string_of_int (Z.to_int z).

(** [f"{a}/{b}"] *)
Definition count_text (a b : Z) : string :=
  str_of_int a ++ "/" ++ str_of_int b.

(** [s.split('/')[-1]]: what follows the last slash. *)
Definition last_part (s : string) : string := Menu.basename s.

Definition len {A} (l : list A) : Z := Z.of_nat (List.length l).

Section Text.

(** [str.upper], taken as given. *)
Variable upper : string -> string.

Definition write_char (char : ascii) : list Bus :=
  match glyph char with
  | Some pattern => flat_map write_data pattern ++ write_data 0x00
  | None => []
  end.

Definition write_text (text : string) (page col : Z) : list Bus :=
  set_position page col
  ++ flat_map write_char (list_ascii_of_string (upper text)).

(** One pass of the loop over the items in [show_menu_window]; [i] is
    a valid index where [items[i]] is read. *)
Definition menu_line (items : list string) (selected_idx start_idx i : Z)
  : list Bus :=
  let display_line := i - start_idx + 1 in
  if (i >=? len items) || (display_line <? 1) || (display_line >? 8) then []
  else
    let filename := last_part (nth (Z.to_nat i) items "") in
    if i =? selected_idx
    then write_text ("* " ++ substring 0 16 filename) display_line 0
    else write_text ("  " ++ substring 0 16 filename) display_line 0.

Definition show_menu_window (title : string) (items : list string)
    (selected_idx start_idx : Z) : list Bus :=
  clear_line 0
  ++ write_text title 0 0
  ++ write_text (count_text (selected_idx + 1) (len items)) 0 100
  ++ (let end_idx := Z.min (start_idx + 8) (len items) in
      flat_map clear_line (range 1 9)
      ++ (if (start_idx <? 0) || (start_idx >=? len items) then []
          else flat_map (menu_line items selected_idx start_idx)
                        (range start_idx end_idx))).

(** [if line:] holds for a string that is given and not empty. *)
Definition optional_line (line : option string) (page : Z) : list Bus :=
  match line with
  | Some s => if String.eqb s "" then [] else write_text s page 0
  | None => []
  end.

Definition show_status (line1 line2 : string) (line3 line4 : option string)
  : list Bus :=
  clear
  ++ write_text line1 0 0
  ++ write_text line2 1 0
  ++ optional_line line3 2
  ++ optional_line line4 3.

Definition update_counter_only (selected_idx total_items : Z) : list Bus :=
  set_position 0 90
  ++ write_data_bulk (repeat 0x00 38)
  ++ write_text (count_text (selected_idx + 1) total_items) 0 100.

Definition move_selection_marker (items : list string)
    (old_line new_line start_idx : Z) : list Bus :=
  match items with
  | [] => []
  | _ :: _ =>
      if (old_line <? 1) || (old_line >? 8)
         || (new_line <? 1) || (new_line >? 8) then []
      else
        let old_item_idx := start_idx + old_line - 1 in
        let new_item_idx := start_idx + new_line - 1 in
        if (old_item_idx <? 0) || (old_item_idx >=? len items)
           || (new_item_idx <? 0) || (new_item_idx >=? len items) then []
        else
          (let filename :=
             last_part (nth (Z.to_nat old_item_idx) items "") in
           clear_line old_line
           ++ write_text ("  " ++ substring 0 16 filename) old_line 0)
          ++ (let filename :=
                last_part (nth (Z.to_nat new_item_idx) items "") in
              clear_line new_line
              ++ write_text ("* " ++ substring 0 16 filename) new_line 0)
  end.

End Text.

(** The pages a bus trace selects, in order: the command [0xB0 + page]. *)
Definition page_selects (t : list Bus) : list Z :=
  flat_map (fun e => match e with
                     | Cmd c => if 0xB0 <=? c then [c - 0xB0] else []
                     | Data _ => []
                     end) t.

Definition data_bytes (t : list Bus) : list Z :=
  flat_map (fun e => match e with Data d => [d] | Cmd _ => [] end) t.

End Display.

(** ** Observations of runs and example inputs *)

Module Runs.

Import Replay Scenario.
Local Open Scope string_scope.
Local Open Scope list_scope.
Local Open Scope Z_scope.

(** The response to a request served with chunk [c]. *)
Definition answer (c : list byte) : list byte := REQUEST :: padded c.

Definition nonempty (c : list byte) : bool :=
  match c with [] => false | _ :: _ => true end.

Definition is_no_request (e : Event) : bool :=
  match e with Print (StoppedNoRequest _ _ _ _ _) => true | _ => false end.

Definition is_stop_remove (e : Event) : bool :=
  match e with StopFileRemove => true | _ => false end.

(** Frames the summary reports as left in the file. *)
Definition summary_left (e : Event) : list Z :=
  match e with Print (Summary _ _ remaining) => [remaining] | _ => [] end.

(** A pass of the wait for button B in which nothing happens. *)
Definition idle_wait (w : Wait) : bool :=
  negb (w_sig w) && negb (is_stop (w_evt w))
  && negb (key_in (w_ch w) ["q"; "Q"; "b"; "B"]%char).

(** A pass in which the device sends a stray byte while the stop file
    is there. *)
Definition stray_with_stop_file : Iter :=
  mkIter false false (Some "042"%byte) true.

(** A session that has streamed a 120-byte recording to its end and is
    left waiting: nobody presses anything in the two passes observed. *)
Definition waiting_world : World :=
  mkWorld true (Some PING) (fun _ _ => Some (repeat "042"%byte 120))
          (repeat request 3) false
          [mkWait false None None; mkWait false (Some "x"%char) (Some JsUp)]
          true.

(** The menu after a sequence of up and down events, display present or
    not. *)
Definition walk (oled : bool) (ds : list Menu.Direction) (n : Menu.Nav)
  : Menu.Nav :=
  fold_left (fun m d => fst (Menu.navigate oled d m)) ds n.

(** A render that redraws the whole window. *)
Definition is_full_redraw (r : Menu.Render) : bool :=
  match r with Menu.ShowMenuWindow _ _ _ => true | _ => false end.

(** The menu shows [files], the selection is a valid index, the window
    starts on or before the last full page and contains the selection. *)
Definition window_ok (files : list string) (n : Menu.Nav) : Prop :=
  Menu.menu_items n = files
  /\ 0 <= Menu.idx n < Menu.len files
  /\ 0 <= Menu.window_start n <= Z.max 0 (Menu.len files - 8)
  /\ Menu.window_start n <= Menu.idx n < Menu.window_start n + 8.

(** Polls of the monitoring loop in which nobody asks to stop. *)
Definition calm_poll (p : Supervisor.Poll) : bool :=
  negb (Supervisor.p_shutdown p)
  && negb (Supervisor.has_key (Supervisor.p_ch2 p))
  && negb (is_stop (Supervisor.p_evt2 p)).

Definition is_nap (a : Supervisor.Action) : bool :=
  match a with Supervisor.Nap _ => true | _ => false end.

Definition is_popen (s : MenuLoop.Step) : bool :=
  match s with MenuLoop.Sup (Supervisor.Popen _ _) => true | _ => false end.

(** Times in milliseconds, for the examples: the cooldown of 0.18 s and
    a clock that advances by 100 ms per reading. *)
Definition ms_cooled (now last : Z) : bool := now - last >? 180.
Definition ms_clock (n : nat) : Z := 1000 + 100 * Z.of_nat n.

Definition fresh_reader : Joystick.Reader Z := Joystick.mkReader [] [] 0 0.

(** A press of button 1, the same with the INIT flag, and a push of
    axis 1 to -20000. *)
Definition press_1 : Joystick.Frame :=
  Joystick.mkFrame "000" "000" "000" "000" "001" "000" "001" "001".
Definition press_1_init : Joystick.Frame :=
  Joystick.mkFrame "010" "000" "000" "000" "001" "000" "129" "001".
Definition push_up : Joystick.Frame :=
  Joystick.mkFrame "000" "000" "000" "000" "224" "177" "002" "001".

End Runs.

(** * Properties *)

Import Scenario.
Local Open Scope string_scope.
Local Open Scope list_scope.
Local Open Scope Z_scope.

(** ** Menu paging *)

Section MenuPaging.

Import Menu.

Lemma page_start_cases (total w i o : Z) :
  fst (page total w i (Some o)) =
    if i <? w then (if i <? 8 then 0 else Z.max 0 (i - 6))
    else if w + 8 <=? i
         then (if total - 8 <=? i then Z.max 0 (total - 8)
               else Z.max 0 (i - 1))
         else w.
Proof.
  unfold page, window_size.
  destruct (i <? w) eqn:Hlt; [reflexivity|].
  rewrite Z.geb_leb.
  destruct (w + 8 <=? i) eqn:Hge; [|reflexivity].
  rewrite Z.geb_leb. reflexivity.
Qed.

Lemma show_menu_start (a : Attrs) (files : list string) (i o : Z) :
  files <> [] ->
  start_of (fst (_show_oled_menu true a files i (Some o))) =
    fst (page (len files) (start_of a) i (Some o)).
Proof.
  intros Hne. unfold _show_oled_menu. simpl negb. cbv iota.
  destruct files as [|x l]; [congruence|].
  assert (Hlen : len (map basename (x :: l)) = len (x :: l))
    by (unfold len; now rewrite length_map).
  rewrite Hlen.
  assert (Hs : start_of
                 match current_start_idx a with
                 | Some _ => a
                 | None => mkAttrs (Some 0) []
                 end = start_of a)
    by (unfold start_of; destruct (current_start_idx a) eqn:E;
        cbn; now rewrite ?E).
  rewrite Hs.
  destruct (page (len (x :: l)) (start_of a) i (Some o)) as [s r].
  destruct r; reflexivity.
Qed.

Lemma navigate_state (d : Direction) (n : Nav) :
  menu_items n <> [] ->
  let i := (idx n + delta d) mod len (menu_items n) in
  idx (fst (navigate true d n)) = i /\
  menu_items (fst (navigate true d n)) = menu_items n /\
  window_start (fst (navigate true d n)) =
    fst (page (len (menu_items n)) (window_start n) i (Some (idx n))).
Proof.
  intros Hne i. unfold navigate, draw, window_start.
  destruct (menu_items n) as [|x l] eqn:Hm; [congruence|].
  cbn [menu_items idx attrs].
  fold i.
  pose proof (show_menu_start (attrs n) (map basename (x :: l)) i (idx n))
    as Hshow.
  destruct (_show_oled_menu true (attrs n) (map basename (x :: l)) i
                            (Some (idx n))) as [a r].
  cbn [fst idx menu_items attrs] in *.
  repeat split.
  rewrite Hshow by discriminate.
  unfold len. now rewrite length_map.
Qed.

Example down_inside_window :
  window_start (fst (navigate true Down (twenty 6 0))) = 0.
Proof. reflexivity. Qed.

Example down_leaves_window :
  window_start (fst (navigate true Down (twenty 7 0))) = 7.
Proof. reflexivity. Qed.

Example down_into_last_page :
  window_start (fst (navigate true Down (twenty 14 7))) = 12.
Proof. reflexivity. Qed.

Example down_wraps_to_first_page :
  idx (fst (navigate true Down (twenty 19 12))) = 0 /\
  window_start (fst (navigate true Down (twenty 19 12))) = 0.
Proof. split; reflexivity. Qed.

Example up_wraps_to_last_page :
  idx (fst (navigate true Up (twenty 0 0))) = 19 /\
  window_start (fst (navigate true Up (twenty 0 0))) = 12.
Proof. split; reflexivity. Qed.

Example up_leaves_window :
  window_start (fst (navigate true Up (twenty 12 12))) = 5.
Proof. reflexivity. Qed.

(** C9: a single navigation step over a non-empty list moves the
    selection by one with wraparound and updates the window start by
    the asymmetric paging rule: above the window it becomes 0 for an
    index among the first 8 items and [max 0 (index - 6)] otherwise;
    below the window it becomes [max 0 (count - 8)] for an index among
    the last 8 items and [max 0 (index - 1)] otherwise; inside the
    window it is unchanged.  Afterwards the selection lies inside the
    window. *)
Theorem C9_paging_rule (d : Direction) (n : Nav) :
  menu_items n <> [] ->
  let n' := fst (navigate true d n) in
  let total := len (menu_items n) in
  let i := idx n' in
  let w := window_start n in
  let w' := window_start n' in
  i = (idx n + delta d) mod total /\
  (i < w -> w' = if i <? 8 then 0 else Z.max 0 (i - 6)) /\
  (w + 8 <= i ->
   w' = if total - 8 <=? i then Z.max 0 (total - 8)
        else Z.max 0 (i - 1)) /\
  (w <= i < w + 8 -> w' = w) /\
  w' <= i < w' + 8.
Proof.
  intros Hne. cbv zeta.
  destruct (navigate_state d n Hne) as (Hi & _ & Hw). cbv zeta in Hi, Hw.
  rewrite <- Hi in Hw. rewrite page_start_cases in Hw.
  set (i := idx (fst (navigate true d n))) in *.
  set (w' := window_start (fst (navigate true d n))) in *.
  set (w := window_start n) in *.
  set (total := len (menu_items n)) in *.
  assert (Htot : 0 < total).
  { unfold total, len. destruct (menu_items n); [congruence|].
    cbn [List.length]. lia. }
  assert (Hrange : 0 <= i < total)
    by (rewrite Hi; apply Z.mod_pos_bound; exact Htot).
  split; [exact Hi|].
  destruct (Z.ltb_spec i w) as [Hlt|Hge].
  - repeat split; intros; try lia; try exact Hw;
      destruct (Z.ltb_spec i 8); lia.
  - destruct (Z.leb_spec (w + 8) i) as [Hbelow|Hin].
    + repeat split; intros; try lia; try exact Hw;
        destruct (Z.leb_spec (total - 8) i); lia.
    + repeat split; intros; lia.
Qed.

Lemma C9_paging_rule_witness :
  menu_items (twenty 7 0) <> [] /\
  window_start (fst (navigate true Down (twenty 7 0)))
    <= idx (fst (navigate true Down (twenty 7 0)))
    < window_start (fst (navigate true Down (twenty 7 0))) + 8.
Proof.
  assert (Hne : menu_items (twenty 7 0) <> []) by discriminate.
  split; [exact Hne|].
  exact (proj2 (proj2 (proj2 (proj2
           (C9_paging_rule Down (twenty 7 0) Hne))))).
Defined.

End MenuPaging.

(** ** The read loop *)

Import Replay.

(** Case analysis on everything one pass of the loop branches on. *)
Ltac case_on c :=
  let E := fresh "E" in
  destruct c eqn:E; cbn in E; try discriminate E; cbn.

Ltac split_step :=
  match goal with
  | |- context [if ?c then _ else _] => case_on c
  | |- context [match dev ?e with _ => _ end] => case_on (dev e)
  | |- context [match firstn ?n ?l with _ => _ end] =>
      case_on (firstn n l)
  | |- context [match timeout_count ?s with _ => _ end] =>
      case_on (timeout_count s)
  end.

Ltac split_iteration :=
  unfold iteration, deliver, signal_handler, on_timeout, serve,
    after_command, check_stop_file, advance, f_read;
  cbn; repeat split_step.

Section ReadLoop.

(** *** Reading traces piecewise *)

Lemma ser_writes_app (a b : list Event) :
  ser_writes (a ++ b) = ser_writes a ++ ser_writes b.
Proof. apply flat_map_app. Qed.

Lemma responses_app (a b : list Event) :
  responses (a ++ b) = responses a ++ responses b.
Proof. unfold responses. now rewrite ser_writes_app, filter_app. Qed.

Lemma reset_calls_app (a b : list Event) :
  reset_calls (a ++ b) = (reset_calls a + reset_calls b)%nat.
Proof. unfold reset_calls. now rewrite filter_app, length_app. Qed.

Lemma file_read_sizes_app (a b : list Event) :
  file_read_sizes (a ++ b) = file_read_sizes a ++ file_read_sizes b.
Proof. apply flat_map_app. Qed.

Lemma len_app {A} (a b : list A) : len (a ++ b) = len a + len b.
Proof. unfold len. rewrite length_app. lia. Qed.

(** *** One pass, case by case *)

Lemma serve_latches (s : Loop) :
  latches (fst (fst (serve s))) =
    latches s + match snd (serve s) with Next => 30 | Break _ => 0 end.
Proof. split_iteration; lia. Qed.

Lemma iteration_latches (e : Iter) (s : Loop) :
  latches (fst (fst (iteration e s))) =
    latches s + 30 * len (responses (snd (fst (iteration e s))))
  /\ len (responses (snd (fst (iteration e s)))) <= 1.
Proof. split_iteration; lia. Qed.

Lemma read_loop_latches (es : list Iter) :
  forall s,
    latches (fst (fst (read_loop es s))) =
      latches s + 30 * len (responses (snd (fst (read_loop es s)))).
Proof.
  induction es as [|e es IH]; intros s; cbn [read_loop].
  - cbn. lia.
  - pose proof (proj1 (iteration_latches e s)) as Hit.
    destruct (iteration e s) as [[s1 t1] fl]. cbn [fst snd] in Hit.
    destruct fl as [|term]; [|exact Hit].
    specialize (IH s1).
    destruct (read_loop es s1) as [[s2 t2] r]. cbn [fst snd] in *.
    rewrite responses_app, len_app. lia.
Qed.

Lemma iteration_extra (e : Iter) (s : Loop) :
  extra s = 0 ->
  extra (fst (fst (iteration e s))) = 0 /\
  Forall (fun n => n = 60)
         (file_read_sizes (snd (fst (iteration e s)))).
Proof.
  intros H. split_iteration;
    repeat match goal with
      | E : (extra _ >? 0) = true |- _ => rewrite H in E; discriminate E
      end;
    (split; [first [assumption | reflexivity] | repeat constructor]).
Qed.

Lemma read_loop_extra (es : list Iter) :
  forall s,
    extra s = 0 ->
    extra (fst (fst (read_loop es s))) = 0 /\
    Forall (fun n => n = 60)
           (file_read_sizes (snd (fst (read_loop es s)))).
Proof.
  induction es as [|e es IH]; intros s H; cbn [read_loop].
  - cbn. auto.
  - destruct (iteration_extra e s H) as [Hx Hr].
    destruct (iteration e s) as [[s1 t1] fl]. cbn [fst snd] in *.
    destruct fl as [|term]; [|auto].
    destruct (IH s1 Hx) as [Hx2 Hr2].
    destruct (read_loop es s1) as [[s2 t2] r]. cbn [fst snd] in *.
    split; [exact Hx2|].
    rewrite file_read_sizes_app. apply Forall_app. auto.
Qed.

Example residual_read_counts_thirty :
  serve residual_state =
    (mkLoop 120 0 (mkFile (repeat "007"%byte 100) 100) None
            (Some (repeat "007"%byte 40)) None false,
     [FileRead 56 (repeat "007"%byte 40);
      SerWrite (REQUEST :: zeros 4 ++ repeat "007"%byte 40)],
     Next).
Proof. reflexivity. Qed.

(** C6: the frame counter grows by exactly 30 for each answered
    [0x0F] request, through the full 60-byte read as well as through
    the residual short read, and nothing else changes it: over one
    call of the request branch, over one pass of the loop and over any
    run of the loop, from any state, its increase is 30 times the
    number of responses written, so it never decreases. *)
Theorem C6_frame_counter (es : list Iter) (e : Iter) (s : Loop) :
  latches (fst (fst (serve s))) =
    latches s + match snd (serve s) with Next => 30 | Break _ => 0 end
  /\ latches (fst (fst (iteration e s))) =
       latches s + 30 * len (responses (snd (fst (iteration e s))))
  /\ len (responses (snd (fst (iteration e s)))) <= 1
  /\ latches (fst (fst (read_loop es s))) =
       latches s + 30 * len (responses (snd (fst (read_loop es s))))
  /\ latches s <= latches (fst (fst (read_loop es s))).
Proof.
  pose proof (read_loop_latches es s) as Hrun.
  repeat split.
  - apply serve_latches.
  - apply iteration_latches.
  - apply iteration_latches.
  - exact Hrun.
  - rewrite Hrun. unfold len. lia.
Qed.

(** C10: the residual offset [extra] is 0 when the loop starts and
    after any number of passes, whatever the device, the signals and
    the stop file do; hence every read of the recording asks for
    exactly 60 bytes: the residual branch is never taken. *)
Theorem C10_extra_always_zero (data : list byte) (es : list Iter) :
  extra (loop_start data) = 0
  /\ extra (fst (fst (read_loop es (loop_start data)))) = 0
  /\ Forall (fun n => n = 60)
            (file_read_sizes (snd (fst (read_loop es (loop_start data))))).
Proof.
  split; [reflexivity|].
  apply read_loop_extra. reflexivity.
Qed.

(** *** More about one pass *)

Lemma iteration_timeouts (e : Iter) (s : Loop) :
  let '(s', _, fl) := iteration e s in
  match fl with
  | Break DeviceError =>
      dev e = None /\ 10 < timeouts_so_far s + 1
      /\ timeouts_so_far s' = timeouts_so_far s + 1
  | Next =>
      match dev e with
      | None => timeouts_so_far s' = timeouts_so_far s + 1
                /\ timeouts_so_far s + 1 <= 10
      | Some _ => timeouts_so_far s' = 0
      end
  | Break _ => True
  end.
Proof.
  unfold timeouts_so_far.
  split_iteration; repeat split; try reflexivity; try lia; try congruence.
Qed.

Lemma iteration_events (e : Iter) (s : Loop) :
  forallb before_end (snd (fst (iteration e s))) = true.
Proof. split_iteration; reflexivity. Qed.

Lemma iteration_interrupt (e : Iter) (s : Loop) :
  let '(s', t, fl) := iteration e s in
  (shutdown_requested s = true \/ sig_head e = true ->
   fl = Break Interrupted /\ ser_writes t = [] /\ file_reads t = []
   /\ latches s' = latches s)
  /\ (sig_read e = true -> fl = Next ->
      shutdown_requested s' = true /\ dev e = None)
  /\ (fl = Next -> shutdown_requested s' = true -> dev e = None)
  /\ (forall b, dev e = Some b -> stop_file e = true ->
      latches s' mod 100 = 0 ->
      fl = Break Interrupted \/ fl = Break Completed).
Proof.
  split_iteration; repeat split; intros;
    repeat match goal with
      | H : _ \/ _ |- _ => destruct H
      | H : _ /\ _ |- _ => destruct H
      end;
    try reflexivity; try congruence; try lia; auto.
Qed.

Lemma iteration_file (e : Iter) (s : Loop) :
  extra s = 0 ->
  let '(s', t, fl) := iteration e s in
  (fl = Break Completed <-> In (FileRead 60 []) t)
  /\ (fl = Break Completed -> next_chunk s = [] /\ responses t = [])
  /\ (responses t = [] \/
      next_chunk s <> [] /\
      ser_writes t = [REQUEST :: if len (next_chunk s) <? 60
                                 then padded (next_chunk s)
                                 else next_chunk s] /\
      responses t = ser_writes t /\
      file_reads t = [next_chunk s] /\
      f_pos (f s') = (f_pos (f s) + List.length (next_chunk s))%nat)
  /\ (fl <> Break DeviceError -> responses t = [] ->
      f_pos (f s') = f_pos (f s))
  /\ f_data (f s') = f_data (f s).
Proof.
  intros H. unfold next_chunk, padded.
  split_iteration;
    repeat match goal with
      | E : (extra _ >? 0) = true |- _ => rewrite H in E; discriminate E
      end.
  all: repeat split; intros; try reflexivity; try congruence; try lia;
    try (cbn in *; intuition (try discriminate; try congruence));
    try (right; repeat split; try reflexivity; try congruence).
Qed.

(** *** Timeouts over a run *)

Lemma quiet_run_never_times_out (es : list Iter) :
  forall (run : nat) (s : Loop),
    timeouts_so_far s <= Z.of_nat run ->
    quiet_within 11 run es = true ->
    snd (read_loop es s) <> Some DeviceError.
Proof.
  induction es as [|e es IH]; intros run s Hc Hq; cbn [read_loop].
  - discriminate.
  - pose proof (iteration_timeouts e s) as Hit.
    cbn [quiet_within] in Hq.
    destruct (iteration e s) as [[s1 t1] fl].
    destruct fl as [|term].
    + destruct (dev e) eqn:Hd.
      * specialize (IH 0%nat s1).
        destruct (read_loop es s1) as [[s2 t2] r]. cbn [snd] in *.
        apply IH; [lia|exact Hq].
      * apply andb_prop in Hq. destruct Hq as [_ Hq].
        specialize (IH (S run) s1).
        destruct (read_loop es s1) as [[s2 t2] r]. cbn [snd] in *.
        apply IH; [lia|exact Hq].
    + cbn [snd]. destruct term; try discriminate.
      destruct Hit as (Hd & Hover & _). rewrite Hd in Hq.
      apply andb_prop in Hq. destruct Hq as [Hlim _].
      apply Nat.ltb_lt in Hlim. lia.
Qed.

Lemma body_timeout (e : Iter) (s : Loop) :
  shutdown_requested s = false -> sig_head e = false -> dev e = None ->
  let '(s', _, fl) := iteration e s in
  timeouts_so_far s' = timeouts_so_far s + 1
  /\ (fl = Break DeviceError <-> 10 < timeouts_so_far s')
  /\ (fl = Next <-> timeouts_so_far s' <= 10).
Proof.
  intros Hs Hh Hd. unfold iteration, deliver, timeouts_so_far.
  rewrite Hh, Hs, Hd. split_iteration; repeat split; intros;
    try reflexivity; try lia; try congruence.
Qed.

Lemma body_read (e : Iter) (s : Loop) (b : byte) :
  shutdown_requested s = false -> sig_head e = false -> dev e = Some b ->
  let '(s', _, fl) := iteration e s in
  timeout_count s' = Some 0 /\ fl <> Break DeviceError.
Proof.
  intros Hs Hh Hd. unfold iteration, deliver.
  rewrite Hh, Hs, Hd. split_iteration; split; try reflexivity; congruence.
Qed.

(** C4: in a pass that enters the loop body, a read timeout adds one to
    the consecutive-timeout counter and the loop ends in DeviceError
    exactly when the counter then exceeds 10, otherwise it goes on; a
    read that returns a byte, whatever its value, resets the counter to
    zero and never ends in DeviceError.  Hence a session in which the
    device is never silent for 11 reads in a row does not end in
    DeviceError, ten timeouts from the start leave the loop running,
    and the eleventh ends it. *)
Theorem C4_timeout_counter :
  (forall e s,
      shutdown_requested s = false -> sig_head e = false ->
      dev e = None ->
      let '(s', _, fl) := iteration e s in
      timeouts_so_far s' = timeouts_so_far s + 1
      /\ (fl = Break DeviceError <-> 10 < timeouts_so_far s')
      /\ (fl = Next <-> timeouts_so_far s' <= 10))
  /\ (forall e s b,
         shutdown_requested s = false -> sig_head e = false ->
         dev e = Some b ->
         let '(s', _, fl) := iteration e s in
         timeout_count s' = Some 0 /\ fl <> Break DeviceError)
  /\ (forall data es,
         quiet_within 11 0 es = true ->
         snd (read_loop es (loop_start data)) <> Some DeviceError)
  /\ (forall data,
         snd (read_loop (repeat silence 10) (loop_start data)) = None
         /\ snd (read_loop (repeat silence 11) (loop_start data))
            = Some DeviceError).
Proof.
  split; [exact body_timeout|].
  split; [exact body_read|].
  split.
  - intros data es Hq.
    apply (quiet_run_never_times_out es 0 (loop_start data)); [|exact Hq].
    cbn. lia.
  - intros data. split; reflexivity.
Qed.

Lemma C4_timeout_counter_witness :
  quiet_within 11 0 (repeat silence 10 ++ [request]) = true
  /\ snd (read_loop (repeat silence 10 ++ [request])
                    (loop_start ["001"; "002"]%byte))
     <> Some DeviceError.
Proof.
  split; [reflexivity|].
  apply (proj1 (proj2 (proj2 C4_timeout_counter))). reflexivity.
Defined.

(** *** End of file *)

Lemma next_chunk_length (s : Loop) :
  List.length (next_chunk s) =
    Nat.min 60 (List.length (f_data (f s)) - f_pos (f s)).
Proof.
  unfold next_chunk, f_read. cbn.
  now rewrite length_firstn, length_skipn.
Qed.

Lemma read_loop_completed (es : list Iter) :
  forall s,
    extra s = 0 ->
    let '(_, t, r) := read_loop es s in
    r = Some Completed <-> In (FileRead 60 []) t.
Proof.
  induction es as [|e es IH]; intros s Hx; cbn [read_loop].
  - cbn. split; [discriminate|tauto].
  - pose proof (iteration_file e s Hx) as Hf.
    pose proof (proj1 (iteration_extra e s Hx)) as Hx1.
    destruct (iteration e s) as [[s1 t1] fl]. cbn [fst snd] in *.
    destruct Hf as (Hiff & _).
    destruct fl as [|term].
    + specialize (IH s1 Hx1).
      destruct (read_loop es s1) as [[s2 t2] r].
      rewrite in_app_iff, <- IH. split; [tauto|].
      intros [Hin|Hr]; [|exact Hr].
      apply Hiff in Hin. discriminate.
    + rewrite <- Hiff. split; congruence.
Qed.

(** When the loop ends at the end of the file, the responses written
    are as many as the 60-byte chunks that were left, the last one
    possibly short. *)
Lemma read_loop_chunks (es : list Iter) :
  forall s,
    extra s = 0 ->
    let '(s', t, r) := read_loop es s in
    r = Some Completed ->
    f_size (f s) <= f_tell (f s) + 60 * len (responses t)
    /\ (0 < len (responses t) ->
        f_tell (f s) + 60 * (len (responses t) - 1) < f_size (f s)).
Proof.
  induction es as [|e es IH]; intros s Hx; cbn [read_loop].
  - discriminate.
  - pose proof (iteration_file e s Hx) as Hf.
    pose proof (proj1 (iteration_extra e s Hx)) as Hx1.
    pose proof (proj2 (iteration_latches e s)) as Hone.
    pose proof (next_chunk_length s) as Hlen.
    destruct (iteration e s) as [[s1 t1] fl]. cbn [fst snd] in *.
    destruct Hf as (_ & Hdone & Hresp & Hpos & Hdata).
    unfold f_size, f_tell in *.
    destruct fl as [|term].
    + specialize (IH s1 Hx1).
      destruct (read_loop es s1) as [[s2 t2] r].
      intros Hr. specialize (IH Hr). rewrite Hdata in IH.
      rewrite responses_app, len_app.
      destruct Hresp as [Hnone|(Hne & Hw & Hrw & _ & Hp)].
      * rewrite Hnone in *. rewrite Hpos in IH by congruence.
        change (len (@nil (list byte))) with 0. rewrite Z.add_0_l. exact IH.
      * assert (0 < List.length (next_chunk s))%nat
          by (destruct (next_chunk s); [congruence|cbn; lia]).
        assert (len (responses t1) = 1) by (now rewrite Hrw, Hw).
        unfold len in *. lia.
    + intros Hr. injection Hr as ->.
      destruct (Hdone eq_refl) as [Hnil Hr0].
      rewrite Hnil in Hlen. rewrite Hr0.
      change (len (@nil (list byte))) with 0.
      cbn [List.length] in Hlen. lia.
Qed.

Lemma request_pass (s : Loop) :
  shutdown_requested s = false -> extra s = 0 ->
  let '(s', _, fl) := iteration request s in
  shutdown_requested s' = false /\ extra s' = 0
  /\ f_data (f s') = f_data (f s)
  /\ f_pos (f s') = (f_pos (f s) + List.length (next_chunk s))%nat
  /\ fl = match next_chunk s with [] => Break Completed | _ => Next end.
Proof.
  intros Hs Hx. unfold next_chunk, iteration, request, deliver.
  cbn [sig_head sig_read dev stop_file]. rewrite Hs.
  split_iteration;
    repeat match goal with
      | E : (extra _ >? 0) = true |- _ => rewrite Hx in E; discriminate E
      end;
    repeat split; try assumption; try reflexivity; try congruence.
Qed.

Lemma three_requests_complete (data : list byte) :
  len data = 120 ->
  snd (read_loop (repeat request 3) (loop_start data)) = Some Completed.
Proof.
  intros Hlen. unfold len in Hlen.
  set (s0 := loop_start data).
  assert (H0 : shutdown_requested s0 = false /\ extra s0 = 0
               /\ f_data (f s0) = data /\ f_pos (f s0) = 0%nat)
    by (repeat split).
  destruct H0 as (Hs0 & Hx0 & Hd0 & Hp0).
  cbn [repeat read_loop].
  pose proof (request_pass s0 Hs0 Hx0) as H1.
  pose proof (next_chunk_length s0) as Hc0.
  destruct (iteration request s0) as [[s1 t1] fl1].
  destruct H1 as (Hs1 & Hx1 & Hd1 & Hp1 & Hfl1).
  rewrite Hd0, Hp0 in Hc0.
  destruct (next_chunk s0) eqn:E0; [cbn [List.length] in Hc0; lia|]. subst fl1.
  pose proof (request_pass s1 Hs1 Hx1) as H2.
  pose proof (next_chunk_length s1) as Hc1.
  destruct (iteration request s1) as [[s2 t2] fl2].
  destruct H2 as (Hs2 & Hx2 & Hd2 & Hp2 & Hfl2).
  rewrite Hd1, Hd0, Hp1, Hp0, Hc0 in Hc1.
  destruct (next_chunk s1) eqn:E1; [cbn [List.length] in Hc1; lia|]. subst fl2.
  pose proof (request_pass s2 Hs2 Hx2) as H3.
  pose proof (next_chunk_length s2) as Hc2.
  destruct (iteration request s2) as [[s3 t3] fl3].
  destruct H3 as (_ & _ & _ & _ & Hfl3).
  rewrite Hd2, Hd1, Hd0, Hp2, Hp1, Hp0, Hc0, Hc1 in Hc2.
  destruct (next_chunk s2) eqn:E2; [|cbn [List.length] in Hc2; lia]. subst fl3.
  reflexivity.
Qed.

(** C1: a session that has reached the read loop ends Completed exactly
    when a 60-byte read of the recording has returned nothing.  For a
    recording of 120 bytes, a session that ends Completed has answered
    exactly two [0x0F] requests and its frame count is 60, and three
    requests in a row do end it Completed. *)
Theorem C1_completed_iff_empty_read (data : list byte) (es : list Iter) :
  let '(s, t, r) := read_loop es (loop_start data) in
  (r = Some Completed <-> In (FileRead 60 []) t)
  /\ (len data = 120 -> r = Some Completed ->
      len (responses t) = 2 /\ latches s = 60)
  /\ (len data = 120 ->
      snd (read_loop (repeat request 3) (loop_start data))
        = Some Completed).
Proof.
  pose proof (read_loop_completed es (loop_start data) eq_refl) as Hiff.
  pose proof (read_loop_chunks es (loop_start data) eq_refl) as Hch.
  pose proof (read_loop_latches es (loop_start data)) as Hl.
  destruct (read_loop es (loop_start data)) as [[s t] r].
  cbn [fst snd] in Hl.
  split; [exact Hiff|]. split.
  - intros Hlen Hr. specialize (Hch Hr).
    change (f_size (f (loop_start data))) with (len data) in Hch.
    change (f_tell (f (loop_start data))) with 0 in Hch.
    change (latches (loop_start data)) with 0 in Hl.
    assert (0 <= len (responses t)) by (unfold len; lia).
    assert (len (responses t) = 2) by lia.
    split; lia.
  - apply three_requests_complete.
Qed.

Lemma C1_completed_iff_empty_read_witness :
  len (repeat "042"%byte 120) = 120
  /\ snd (read_loop (repeat request 3) (loop_start (repeat "042"%byte 120)))
     = Some Completed.
Proof.
  split; [reflexivity|].
  exact (proj2 (proj2 (C1_completed_iff_empty_read
                         (repeat "042"%byte 120) [])) eq_refl).
Defined.

(** *** Responses *)

Lemma request_answered (e : Iter) (s : Loop) :
  shutdown_requested s = false -> sig_head e = false ->
  dev e = Some REQUEST -> extra s = 0 -> next_chunk s <> [] ->
  ser_writes (snd (fst (iteration e s))) =
    [REQUEST :: if len (next_chunk s) <? 60 then padded (next_chunk s)
                else next_chunk s]
  /\ file_reads (snd (fst (iteration e s))) = [next_chunk s].
Proof.
  intros Hs Hh Hd Hx Hne. unfold iteration, deliver.
  rewrite Hh, Hs, Hd. revert Hne. unfold next_chunk, padded.
  split_iteration;
    repeat match goal with
      | E : (extra _ >? 0) = true |- _ => rewrite Hx in E; discriminate E
      end;
    intros; try congruence; split; reflexivity.
Qed.

Lemma padded_length (chunk : list byte) :
  len chunk <= 60 -> len (padded chunk) = 60.
Proof.
  intros H. unfold padded, zeros, len in *.
  rewrite length_app, repeat_length. lia.
Qed.

(** C2: when a [0x0F] request is served and the read of the recording
    returns a chunk that is not empty and shorter than 60 bytes, what is
    written to the device is the opcode [0x0F], the chunk, and zeros up
    to 60 bytes of payload: 61 bytes in all. *)
Theorem C2_short_chunk_zero_padded
    (data : list byte) (es : list Iter) (e : Iter) :
  let '(s, _, r) := read_loop es (loop_start data) in
  r = None ->
  shutdown_requested s = false -> sig_head e = false ->
  dev e = Some REQUEST ->
  0 < len (next_chunk s) < 60 ->
  let t := snd (fst (iteration e s)) in
  file_reads t = [next_chunk s]
  /\ ser_writes t =
       [REQUEST :: next_chunk s ++ zeros (60 - len (next_chunk s))]
  /\ len (REQUEST :: next_chunk s ++ zeros (60 - len (next_chunk s))) = 61.
Proof.
  pose proof (proj1 (read_loop_extra es (loop_start data) eq_refl)) as Hx.
  destruct (read_loop es (loop_start data)) as [[s t0] r]. cbn [fst] in Hx.
  intros _ Hs Hh Hd Hlen t.
  assert (Hne : next_chunk s <> [])
    by (intros E; rewrite E in Hlen; cbn in Hlen; lia).
  destruct (request_answered e s Hs Hh Hd Hx Hne) as [Hw Hr].
  fold t in Hw, Hr.
  destruct (Z.ltb_spec (len (next_chunk s)) 60); [|lia].
  repeat split; [exact Hr|exact Hw|].
  pose proof (padded_length (next_chunk s)) as Hp.
  unfold padded in Hp. unfold len in *. cbn [List.length].
  rewrite Nat2Z.inj_succ. lia.
Qed.

Lemma C2_short_chunk_zero_padded_witness :
  ser_writes
    (snd (fst (iteration request
                 (fst (fst (read_loop [request]
                              (loop_start (repeat "042"%byte 70)))))))) =
    [REQUEST :: repeat "042"%byte 10 ++ zeros 50].
Proof.
  exact (proj1 (proj2
    (C2_short_chunk_zero_padded (repeat "042"%byte 70) [request] request
       eq_refl eq_refl eq_refl eq_refl (conj eq_refl eq_refl)))).
Defined.

End ReadLoop.

(** ** Before the loop: handshake and opening the recording *)

Section BeforeTheLoop.

(** C3: once the serial port is open, every session writes the single
    probe byte [0xFF] and reads one byte on a channel opened with a
    500 ms read timeout.  If what was read is not exactly [0xFF], the
    session ends as DeviceNotReady and reports what it received (nothing
    on a timeout); the recording is never opened or read, and the probe
    byte is the only thing ever written to the device. *)
Theorem C3_handshake (w : World) (port path : string) :
  serial_opens w = true ->
  let '(t, r) := run_playback w port (Some path) in
  firstn 6 t = handshake port (ping_reply w)
  /\ (ping_reply w <> Some PING ->
      r = Some (DeviceNotReady (ping_reply w))
      /\ t = handshake port (ping_reply w)
               ++ [Print (NotReady (ping_reply w))]
      /\ existsb is_file_open t = false
      /\ file_reads t = []
      /\ ser_writes t = [[PING]]).
Proof.
  intros Ho. unfold run_playback. rewrite Ho. cbn [negb].
  destruct (ping_reply w) as [b|] eqn:Hp.
  - destruct (Byte.eqb b PING) eqn:Hb.
    + apply Byte.byte_dec_bl in Hb. subst b.
      destruct (open_recording w path (is_bz2 path)) as [data|].
      * destruct (read_loop (iters w) (loop_start data)) as [[s tl] [term|]].
        -- destruct (finish w port s) as [te d].
           split; [reflexivity|]. intros Hne. congruence.
        -- split; [reflexivity|]. intros Hne. congruence.
      * split; [reflexivity|]. intros Hne. congruence.
    + split; [reflexivity|]. intros _. repeat split.
  - split; [reflexivity|]. intros _. repeat split.
Qed.

Lemma C3_handshake_witness :
  serial_opens deaf_world = true
  /\ ping_reply deaf_world <> Some PING
  /\ run_playback deaf_world "/dev/ttyACM0" (Some "run.r08") =
       (handshake "/dev/ttyACM0" (Some "000"%byte)
          ++ [Print (NotReady (Some "000"%byte))],
        Some (DeviceNotReady (Some "000"%byte))).
Proof.
  assert (Hne : ping_reply deaf_world <> Some PING) by discriminate.
  split; [reflexivity|]. split; [exact Hne|].
  pose proof (C3_handshake deaf_world "/dev/ttyACM0" "run.r08" eq_refl)
    as H.
  destruct (run_playback deaf_world "/dev/ttyACM0" (Some "run.r08"))
    as [t r].
  destruct H as (_ & H). destruct (H Hne) as (Hr & Ht & _).
  now rewrite Hr, Ht.
Defined.

(** C8: when the handshake has succeeded and the recording cannot be
    opened, the session ends as FileError with exit code 3, and the
    probe byte is all that was written to the device: neither the reset
    byte [0x00] nor the 7-byte start command is sent. *)
Theorem C8_file_error_before_commands (w : World) (port path : string) :
  serial_opens w = true ->
  ping_reply w = Some PING ->
  open_recording w path (is_bz2 path) = None ->
  let '(t, r) := run_playback w port (Some path) in
  r = Some FileError
  /\ option_map exit_code r = Some 3
  /\ ser_writes t = [[PING]]
  /\ ~ In (SerWrite [RESET]) t
  /\ ~ In (SerWrite START_COMMAND) t
  /\ file_reads t = [].
Proof.
  intros Ho Hp Hf. unfold run_playback.
  rewrite Ho, Hp, Hf. cbn.
  repeat split; try reflexivity; intuition discriminate.
Qed.

Lemma C8_file_error_before_commands_witness :
  serial_opens no_file_world = true
  /\ ping_reply no_file_world = Some PING
  /\ open_recording no_file_world "run.r08" (is_bz2 "run.r08") = None
  /\ ser_writes
       (fst (run_playback no_file_world "/dev/ttyACM0" (Some "run.r08")))
     = [[PING]].
Proof.
  do 3 (split; [reflexivity|]).
  exact (proj1 (proj2 (proj2
    (C8_file_error_before_commands no_file_world "/dev/ttyACM0" "run.r08"
       eq_refl eq_refl eq_refl)))).
Defined.

End BeforeTheLoop.

(** ** After the loop: summary, cleanup and reset *)

Section AfterTheLoop.

Lemma read_loop_events (es : list Iter) :
  forall s, forallb before_end (snd (fst (read_loop es s))) = true.
Proof.
  induction es as [|e es IH]; intros s; cbn [read_loop].
  - reflexivity.
  - pose proof (iteration_events e s) as He.
    destruct (iteration e s) as [[s1 t1] fl]. cbn [fst snd] in He.
    destruct fl as [|term]; [|exact He].
    specialize (IH s1).
    destruct (read_loop es s1) as [[s2 t2] r]. cbn [fst snd] in *.
    rewrite forallb_app, He, IH. reflexivity.
Qed.

Lemma wait_for_button_events (ws : list Wait) :
  forall s, forallb wait_event (snd (fst (wait_for_button ws s))) = true.
Proof.
  induction ws as [|w ws IH]; intros s; cbn [wait_for_button].
  - reflexivity.
  - destruct (deliver (w_sig w) s) as [s1 t1] eqn:Hd.
    assert (Ht1 : forallb wait_event t1 = true).
    { unfold deliver, signal_handler in Hd.
      destruct (w_sig w); injection Hd as <- <-; reflexivity. }
    destruct (is_stop (w_evt w)
              || key_in (w_ch w) ["q"; "Q"; "b"; "B"]%char);
      [exact Ht1|].
    destruct (shutdown_requested s1); [exact Ht1|].
    specialize (IH s1).
    destruct (wait_for_button ws s1) as [[s2 t2] d]. cbn [fst snd] in *.
    rewrite forallb_app, Ht1. exact IH.
Qed.

Lemma precedes_skip (p q : Event -> bool) (a b : list Event) :
  forallb (fun e => negb (p e) && negb (q e)) a = true ->
  precedes p q (a ++ b) = precedes p q b.
Proof.
  induction a as [|e a IH]; intros H; [reflexivity|].
  cbn in H. apply andb_prop in H. destruct H as [He Ha].
  apply andb_prop in He. destruct He as [Hp Hq].
  cbn. apply negb_true_iff in Hp, Hq. rewrite Hp, Hq. now apply IH.
Qed.

Lemma forallb_weaken {A} (p q : A -> bool) (l : list A) :
  (forall x, p x = true -> q x = true) ->
  forallb p l = true -> forallb q l = true.
Proof.
  intros Hpq H. rewrite forallb_forall in *. auto.
Qed.

Lemma reset_calls_none (p : Event -> bool) (t : list Event) :
  (forall e, p e = true -> is_reset_call e = false) ->
  forallb p t = true -> reset_calls t = 0%nat.
Proof.
  intros Hp. unfold reset_calls.
  induction t as [|e t IH]; intros H; [reflexivity|].
  cbn in H. apply andb_prop in H. destruct H as [He Ht].
  cbn. rewrite (Hp e He). now apply IH.
Qed.

(** The end of a session that returns: one summary, then the file is
    closed, then the device channel, and the reset procedure is entered
    once. *)
Lemma finish_shape (w : World) (port : string) (s : Loop) :
  snd (finish w port s) = true ->
  exists a b,
    fst (finish w port s) = a ++ b
    /\ forallb before_end a = true
    /\ precedes is_summary is_file_close b = true
    /\ precedes is_file_close is_ser_close b = true
    /\ reset_calls b = 1%nat.
Proof.
  unfold finish.
  destruct (deliver (sig_after_loop w) s) as [s0 t0] eqn:Hd.
  assert (Ht0 : forallb before_end t0 = true).
  { unfold deliver, signal_handler in Hd.
    destruct (sig_after_loop w); injection Hd as <- <-; reflexivity. }
  set (c1 := if negb (shutdown_requested s0) then _ else _).
  assert (Ht1 : forallb before_end (snd c1) = true).
  { subst c1. destruct (negb (shutdown_requested s0)); [|reflexivity].
    cbn [snd]. destruct (_ <? _); reflexivity. }
  assert (Hs1 : shutdown_requested (fst c1) = shutdown_requested s0).
  { subst c1. destruct (negb (shutdown_requested s0)); reflexivity. }
  destruct c1 as [s1 t1]. cbn [fst snd] in *.
  destruct (shutdown_requested s1) eqn:Hsh; cbn [negb].
  - intros _. exists (t0 ++ t1). eexists.
    split; [cbn [fst]; apply app_assoc|].
    split; [rewrite forallb_app, Ht0, Ht1; reflexivity|].
    unfold _reset_cy8ckit_device.
    destruct (reset_opens w); repeat split; reflexivity.
  - pose proof (wait_for_button_events (waits w) s1) as Hw.
    destruct (wait_for_button (waits w) s1) as [[s2 tw] d].
    cbn [fst snd] in Hw.
    destruct d; [|discriminate].
    intros _. exists (t0 ++ t1). eexists.
    split; [cbn [fst]; apply app_assoc|].
    split; [rewrite forallb_app, Ht0, Ht1; reflexivity|].
    split; [reflexivity|].
    split.
    + cbn. rewrite !existsb_app. cbn. now rewrite !orb_true_r.
    + rewrite !reset_calls_app.
      rewrite (reset_calls_none wait_event tw);
        [|now intros [[]| | | | | | | | | | | |]|exact Hw].
      unfold _reset_cy8ckit_device. destruct (reset_opens w); reflexivity.
Qed.

Lemma before_end_not (p q : Event -> bool) (t : list Event) :
  (forall e, before_end e = true -> p e = false /\ q e = false) ->
  forallb before_end t = true ->
  forallb (fun e => negb (p e) && negb (q e)) t = true.
Proof.
  intros H. apply forallb_weaken. intros e He.
  destruct (H e He) as [-> ->]. reflexivity.
Qed.

(** A session that returns after the loop: everything up to the end of
    the loop is free of summary, closes and resets, and the rest is as
    [finish_shape] says. *)
Lemma run_playback_shape (w : World) (port path : string)
    (t : list Event) (term : Terminal) (l : Z) :
  run_playback w port (Some path) = (t, Some (Finished term l)) ->
  precedes is_summary is_file_close t = true
  /\ precedes is_file_close is_ser_close t = true
  /\ reset_calls t = 1%nat.
Proof.
  unfold run_playback.
  destruct (serial_opens w); cbn [negb]; [|discriminate].
  destruct (ping_reply w) as [b|]; [|discriminate].
  destruct (Byte.eqb b PING); [|discriminate].
  destruct (open_recording w path (is_bz2 path)) as [data|];
    [|discriminate].
  pose proof (read_loop_events (iters w) (loop_start data)) as Hev.
  destruct (read_loop (iters w) (loop_start data)) as [[s tl] [term'|]];
    [|discriminate].
  cbn [fst snd] in Hev.
  pose proof (finish_shape w port s) as Hfin.
  destruct (finish w port s) as [te d]. cbn [fst snd] in Hfin.
  destruct d; [|discriminate].
  destruct (Hfin eq_refl) as (a & b' & -> & Ha & Hsum & Hclose & Hreset).
  intros H. injection H as <- _ _.
  assert (Hpre : forallb before_end (tl ++ a) = true)
    by (now rewrite forallb_app, Hev, Ha).
  rewrite (app_assoc tl a b').
  repeat split.
  - cbn. rewrite precedes_skip; [exact Hsum|].
    apply (before_end_not _ _ _); [|exact Hpre].
    now intros [[]| | | | | | | | | | | |].
  - cbn. rewrite precedes_skip; [exact Hclose|].
    apply (before_end_not _ _ _); [|exact Hpre].
    now intros [[]| | | | | | | | | | | |].
  - unfold reset_calls. cbn. fold (reset_calls ((tl ++ a) ++ b')).
    rewrite reset_calls_app, Hreset.
    rewrite (reset_calls_none before_end); [reflexivity| |exact Hpre].
    now intros [[]| | | | | | | | | | | |].
Qed.

End AfterTheLoop.

(** ** Cancellation *)

Section Cancellation.

Lemma iteration_next (e : Iter) (s : Loop) :
  let '(s', t, fl) := iteration e s in
  (fl = Next ->
   latches s' = latches s + (if is_request e then 30 else 0))
  /\ (fl = Break DeviceError -> is_silent e = true)
  /\ (is_silent e = true -> existsb Runs.is_stop_remove t = false).
Proof.
  unfold is_request, is_silent.
  split_iteration; repeat split; intros;
    try reflexivity; try congruence; lia.
Qed.

Lemma requests_cons (e : Iter) (es : list Iter) :
  requests (e :: es) = (if is_request e then 1 else 0) + requests es.
Proof.
  unfold requests, len. cbn [filter].
  destruct (is_request e); cbn [List.length]; lia.
Qed.

(** While the loop runs with the stop file in place, the frame counter
    does not get past the next multiple of 300. *)
Lemma marker_run (es : list Iter) :
  forall s,
    latches s mod 30 = 0 ->
    forallb stop_file es = true ->
    snd (read_loop es s) = None ->
    30 * requests es + latches s mod 300 <= 270.
Proof.
  induction es as [|e es IH]; intros s Hl Hm Hr.
  - change (requests []) with 0.
    Z.to_euclidean_division_equations. lia.
  - cbn [forallb] in Hm. apply andb_prop in Hm. destruct Hm as [He Hm].
    cbn [read_loop] in Hr.
    pose proof (iteration_next e s) as Hn.
    pose proof (iteration_interrupt e s) as Hi.
    destruct (iteration e s) as [[s1 t1] fl].
    destruct fl as [|term]; [|discriminate Hr].
    destruct Hn as (Hn & _). specialize (Hn eq_refl).
    destruct Hi as (_ & _ & _ & Hpoll).
    specialize (IH s1).
    destruct (read_loop es s1) as [[s2 t2] r]. cbn [snd] in *.
    rewrite requests_cons.
    unfold is_request in *.
    destruct (dev e) as [b|] eqn:Hd.
    + assert (Hmod : latches s1 mod 100 <> 0).
      { intros H0. destruct (Hpoll b eq_refl He H0); discriminate. }
      destruct (Byte.eqb b REQUEST).
      * assert (Hl1 : latches s1 mod 30 = 0)
          by (rewrite Hn; Z.to_euclidean_division_equations; lia).
        specialize (IH Hl1 Hm Hr). rewrite Hn in *.
        Z.to_euclidean_division_equations. lia.
      * rewrite Z.add_0_r in Hn. rewrite Hn in *.
        specialize (IH Hl Hm Hr). lia.
    + rewrite Z.add_0_r in Hn. rewrite Hn in *.
      specialize (IH Hl Hm Hr). lia.
Qed.

Lemma device_error_silent (es : list Iter) :
  forall s,
    snd (read_loop es s) = Some DeviceError -> existsb is_silent es = true.
Proof.
  induction es as [|e es IH]; intros s Hr; [discriminate|].
  cbn [read_loop] in Hr. cbn [existsb].
  pose proof (iteration_next e s) as Hn.
  destruct (iteration e s) as [[s1 t1] fl].
  destruct Hn as (_ & Hn & _).
  destruct fl as [|term].
  - specialize (IH s1). destruct (read_loop es s1) as [[s2 t2] r].
    cbn [snd] in *. rewrite (IH Hr). apply orb_true_r.
  - cbn [snd] in Hr. injection Hr as ->. now rewrite Hn.
Qed.

(** With the stop file in place from some point of a run on, the loop
    does not get past the tenth request received after that point. *)
Lemma marker_bound (data : list byte) (es0 es : list Iter) :
  snd (read_loop es0 (loop_start data)) = None ->
  forallb stop_file es = true ->
  10 <= requests es ->
  let r := snd (read_loop es (fst (fst (read_loop es0 (loop_start data))))) in
  r = Some Interrupted \/ r = Some Completed
  \/ (r = Some DeviceError /\ existsb is_silent es = true).
Proof.
  intros H0 Hm Hn. cbv zeta.
  pose proof (read_loop_latches es0 (loop_start data)) as Hl.
  set (s0 := fst (fst (read_loop es0 (loop_start data)))) in *.
  change (latches (loop_start data)) with 0 in Hl.
  assert (Hl30 : latches s0 mod 30 = 0).
  { rewrite Hl. rewrite Z.add_0_l, Z.mul_comm. apply Z.mod_mul. lia. }
  pose proof (marker_run es s0 Hl30 Hm) as Hrun.
  pose proof (device_error_silent es s0) as Hdev.
  destruct (snd (read_loop es s0)) as [[| |]|]; auto.
  exfalso. specialize (Hrun eq_refl).
  pose proof (Z.mod_pos_bound (latches s0) 300 ltac:(lia)). lia.
Qed.




End Cancellation.

(** ** The supervisor *)

Section SupervisorFacts.

Import Supervisor.

Lemma supervisor_resets_app (a b : list Action) :
  supervisor_resets (a ++ b)
    = (supervisor_resets a + supervisor_resets b)%nat.
Proof.
  unfold supervisor_resets. now rewrite flat_map_app, reset_calls_app.
Qed.

Lemma supervisor_resets_cons (x : Action) (t : list Action) :
  supervisor_resets (x :: t)
    = (reset_calls (device_events x) + supervisor_resets t)%nat.
Proof. unfold supervisor_resets. cbn [flat_map]. apply reset_calls_app. Qed.

Ltac count_resets :=
  repeat (rewrite supervisor_resets_app || rewrite supervisor_resets_cons).

Lemma escalate_no_reset (n : nat) : supervisor_resets (escalate n) = 0%nat.
Proof.
  unfold escalate. rewrite !supervisor_resets_app.
  assert (H : supervisor_resets (repeat (Nap 20) (Nat.min 50 n)) = 0%nat)
    by (induction (Nat.min 50 n); [reflexivity|assumption]).
  rewrite H. destruct (50 <? n)%nat; reflexivity.
Qed.

Lemma monitor_no_reset (ps : list Poll) :
  supervisor_resets (fst (monitor ps)) = 0%nat.
Proof.
  induction ps as [|p ps IH]; cbn [monitor]; [reflexivity|].
  destruct (negb (p_alive p)); [reflexivity|].
  destruct (p_shutdown p); [reflexivity|].
  destruct (has_key (p_ch2 p) || is_stop (p_evt2 p));
    [apply escalate_no_reset|].
  destruct (monitor ps) as [t d]. exact IH.
Qed.

(** What the menu process does around a child that was launched. *)
Lemma attempt_after_launch (a : Attempt) (selected : string)
    (t : list Action) (m : bool) :
  popen_error a = None ->
  playback_attempt a selected = (t, Some m) ->
  supervisor_resets t = 0%nat
  /\ (marker_at_end a = true -> In (RemoveStopFile (remove_ok a)) t)
  /\ m = marker_at_end a && negb (remove_ok a).
Proof.
  intros Herr. unfold playback_attempt, _launch_playback.
  rewrite Herr.
  pose proof (monitor_no_reset (polls a)) as Hmon.
  destruct (monitor (polls a)) as [tm d]. cbn [fst] in Hmon.
  destruct d; [|discriminate].
  unfold remove_marker.
  destruct (marker_at_end a) eqn:Hm; intros H; injection H as <- <-.
  - split; [|split; [|reflexivity]].
    + count_resets. rewrite Hmon.
      destruct (stale_marker a), (wait_times_out a); reflexivity.
    + intros _. right. apply in_or_app. right. right.
      apply in_or_app. right. left. reflexivity.
  - split; [|split; [discriminate|reflexivity]].
    count_resets. rewrite Hmon.
    destruct (stale_marker a), (wait_times_out a); reflexivity.
Qed.

End SupervisorFacts.

(** ** Device resets of a session *)

Section Resets.

Import Supervisor.

(** The end of a session enters the device reset procedure once when
    it runs to its [return], and not at all while it waits. *)
Lemma finish_resets (w : World) (port : string) (s : Loop) :
  reset_calls (fst (finish w port s))
  = if snd (finish w port s) then 1%nat else 0%nat.
Proof.
  unfold finish.
  destruct (deliver (sig_after_loop w) s) as [s0 t0] eqn:Hd.
  assert (Ht0 : reset_calls t0 = 0%nat).
  { unfold deliver, signal_handler in Hd.
    destruct (sig_after_loop w); injection Hd as <- <-; reflexivity. }
  set (c1 := if negb (shutdown_requested s0) then _ else _).
  assert (Ht1 : reset_calls (snd c1) = 0%nat).
  { subst c1. destruct (negb (shutdown_requested s0)); [|reflexivity].
    cbn [snd]. destruct (_ <? _); reflexivity. }
  destruct c1 as [s1 t1]. cbn [fst snd] in *.
  destruct (shutdown_requested s1); cbn [negb].
  - cbn [fst snd]. rewrite !reset_calls_app, Ht0, Ht1.
    unfold _reset_cy8ckit_device. destruct (reset_opens w); reflexivity.
  - pose proof (wait_for_button_events (waits w) s1) as Hw.
    destruct (wait_for_button (waits w) s1) as [[s2 tw] d].
    cbn [fst snd] in Hw.
    assert (Htw : reset_calls tw = 0%nat).
    { apply (reset_calls_none wait_event); [|exact Hw].
      now intros [[]| | | | | | | | | | | |]. }
    destruct d; cbn [fst snd]; rewrite !reset_calls_app, Ht0, Ht1, ?Htw.
    + unfold _reset_cy8ckit_device. destruct (reset_opens w); reflexivity.
    + reflexivity.
Qed.

(** The replay process enters the device reset procedure once when it
    returns after the loop, and not at all otherwise. *)
Lemma run_playback_resets (w : World) (port : string)
    (movie_path : option string) :
  reset_calls (fst (run_playback w port movie_path))
  = match snd (run_playback w port movie_path) with
    | Some (Finished _ _) => 1%nat
    | _ => 0%nat
    end.
Proof.
  unfold run_playback.
  destruct movie_path as [path|]; [|reflexivity].
  destruct (serial_opens w); cbn [negb]; [|reflexivity].
  destruct (ping_reply w) as [b|]; [|reflexivity].
  destruct (Byte.eqb b PING); [|reflexivity].
  destruct (open_recording w path (is_bz2 path)) as [data|];
    [|reflexivity].
  pose proof (read_loop_events (iters w) (loop_start data)) as Hev.
  destruct (read_loop (iters w) (loop_start data)) as [[s tl] r].
  cbn [fst snd] in Hev.
  assert (Htl : reset_calls tl = 0%nat).
  { apply (reset_calls_none before_end); [|exact Hev].
    now intros [[]| | | | | | | | | | | |]. }
  destruct r as [term|].
  - pose proof (finish_resets w port s) as Hfin.
    destruct (finish w port s) as [te d]. cbn [fst snd] in *.
    rewrite !reset_calls_app, Htl, Hfin.
    destruct d; reflexivity.
  - cbn [fst snd]. rewrite !reset_calls_app, Htl. reflexivity.
Qed.




End Resets.

(** * Further properties of the code *)

Import Runs.

Section Streaming.

Lemma short_chunk_answer (c : list byte) :
  len c <= 60 ->
  REQUEST :: (if len c <? 60 then padded c else c) = answer c.
Proof.
  intros H. unfold answer, padded.
  destruct (Z.ltb_spec (len c) 60); [reflexivity|].
  replace (60 - len c) with 0 by lia. cbn. now rewrite app_nil_r.
Qed.

Lemma next_chunk_short (s : Loop) : len (next_chunk s) <= 60.
Proof.
  unfold len. rewrite next_chunk_length. lia.
Qed.

(** What one pass reads from the recording and writes to the device. *)
Lemma iteration_stream (e : Iter) (s : Loop) :
  extra s = 0 ->
  let '(s', t, fl) := iteration e s in
  (file_reads t = [] /\ ser_writes t = []
   \/ file_reads t = [[]] /\ ser_writes t = [] /\ fl = Break Completed
      /\ next_chunk s = []
   \/ next_chunk s <> [] /\ file_reads t = [next_chunk s]
      /\ ser_writes t = [REQUEST :: if len (next_chunk s) <? 60
                                    then padded (next_chunk s)
                                    else next_chunk s])
  /\ (fl <> Break DeviceError ->
      f_pos (f s') =
        (f_pos (f s) + List.length (List.concat (file_reads t)))%nat)
  /\ (fl = Break DeviceError ->
      f_pos (f s') = List.length (f_data (f s)))
  /\ existsb is_no_request t = false
  /\ (existsb is_stop_remove t = true ->
      dev e <> None /\ latches s' mod 100 = 0 /\ fl = Break Interrupted)
  /\ (fl = Break Interrupted -> shutdown_requested s' = true).
Proof.
  intros H. unfold next_chunk, padded.
  split_iteration;
    repeat match goal with
      | E : (extra _ >? 0) = true |- _ => rewrite H in E; discriminate E
      end.
  all: repeat split; intros; try reflexivity; try congruence; try lia;
    try (cbn; rewrite ?app_nil_r; lia);
    try (left; split; reflexivity);
    try (right; left; repeat split; reflexivity);
    try (right; right; repeat split; try reflexivity; congruence).
Qed.

End Streaming.

Section StreamingRuns.

Lemma file_reads_app (a b : list Event) :
  file_reads (a ++ b) = file_reads a ++ file_reads b.
Proof. apply flat_map_app. Qed.

Lemma chunk_split {A} (n : nat) (l : list A) :
  firstn n l ++ skipn (List.length (firstn n l)) l = l.
Proof.
  rewrite length_firstn.
  destruct (Nat.le_ge_cases n (List.length l)) as [H|H].
  - rewrite Nat.min_l by exact H. apply firstn_skipn.
  - rewrite Nat.min_r by exact H.
    rewrite skipn_all, app_nil_r. now apply firstn_all2.
Qed.

Lemma next_chunk_split (s : Loop) :
  skipn (f_pos (f s)) (f_data (f s)) =
    next_chunk s
      ++ skipn (f_pos (f s) + List.length (next_chunk s)) (f_data (f s)).
Proof.
  unfold next_chunk, f_read. cbn [fst].
  change (60 <? 0) with false. cbv iota.
  rewrite (Nat.add_comm (f_pos (f s))), <- skipn_skipn.
  symmetry. apply chunk_split.
Qed.

(** One pass, as far as the recording is concerned. *)
Lemma iteration_reads (e : Iter) (s : Loop) :
  extra s = 0 ->
  let '(s', t, fl) := iteration e s in
  let got := List.concat (file_reads t) in
  skipn (f_pos (f s)) (f_data (f s)) =
    got ++ skipn (f_pos (f s) + List.length got) (f_data (f s))
  /\ ser_writes t = map answer (filter nonempty (file_reads t))
  /\ Forall (fun c => len c <= 60) (file_reads t)
  /\ (fl = Break Completed -> got = [] /\ next_chunk s = []).
Proof.
  intros Hx.
  pose proof (iteration_stream e s Hx) as Hst.
  pose proof (iteration_file e s Hx) as Hf.
  pose proof (next_chunk_short s) as Hshort.
  pose proof (short_chunk_answer (next_chunk s) Hshort) as Hans.
  pose proof (next_chunk_split s) as Hsplit.
  destruct (iteration e s) as [[s1 t1] fl].
  destruct Hst as (Hrw & _). destruct Hf as (_ & Hdone & _).
  assert (Hend : fl = Break Completed -> next_chunk s = [])
    by (intros H; now destruct (Hdone H)).
  destruct Hrw as [(Hr & Hw)|[(Hr & Hw & Hfl & Hnil)|(Hne & Hr & Hw)]];
    cbv zeta; rewrite Hr, Hw;
    cbn [List.concat filter nonempty map app List.length].
  - rewrite Nat.add_0_r. repeat split; try constructor. now apply Hend.
  - rewrite Nat.add_0_r.
    repeat split; repeat constructor; [cbn; lia|exact Hnil].
  - rewrite app_nil_r, Hans.
    destruct (next_chunk s) eqn:E; [congruence|]. cbn [nonempty map].
    rewrite <- E in *.
    repeat split; repeat constructor; auto; intros H; now apply Hend in H.
Qed.

Lemma read_loop_stream (es : list Iter) :
  forall s,
    extra s = 0 ->
    let '(s', t, r) := read_loop es s in
    let got := List.concat (file_reads t) in
    skipn (f_pos (f s)) (f_data (f s)) =
      got ++ skipn (f_pos (f s) + List.length got) (f_data (f s))
    /\ ser_writes t = map answer (filter nonempty (file_reads t))
    /\ Forall (fun c => len c <= 60) (file_reads t)
    /\ (r <> Some DeviceError ->
        f_pos (f s') = (f_pos (f s) + List.length got)%nat)
    /\ (r = Some DeviceError ->
        f_pos (f s') = List.length (f_data (f s)))
    /\ (r = Some Interrupted -> shutdown_requested s' = true)
    /\ (r = Some Completed -> next_chunk s' = [])
    /\ f_data (f s') = f_data (f s).
Proof.
  induction es as [|e es IH]; intros s Hx; cbn [read_loop].
  - cbn. rewrite Nat.add_0_r.
    repeat split; try constructor; try discriminate; auto.
  - pose proof (iteration_stream e s Hx) as Hst.
    pose proof (iteration_reads e s Hx) as Hrd.
    pose proof (iteration_file e s Hx) as Hf.
    pose proof (proj1 (iteration_extra e s Hx)) as Hx1.
    destruct (iteration e s) as [[s1 t1] fl]. cbn [fst snd] in *.
    destruct Hst as (_ & Hpos & Hdev & _ & _ & Hint).
    destruct Hf as (_ & _ & _ & _ & Hdata).
    cbv zeta in Hrd. destruct Hrd as (Hsplit & Hw & Hshort & Hend).
    destruct fl as [|term].
    + specialize (IH s1 Hx1).
      destruct (read_loop es s1) as [[s2 t2] r]. cbv zeta in IH |- *.
      destruct IH as (Hsplit2 & Hw2 & Hshort2 & Hpos2 & Hdev2 & Hint2
                      & Hend2 & Hdata2).
      rewrite Hpos in * by discriminate. rewrite Hdata in *.
      rewrite file_reads_app, ser_writes_app, concat_app, length_app,
        filter_app, map_app, <- Hw, <- Hw2.
      repeat split; auto.
      * rewrite Hsplit at 1. rewrite Hsplit2.
        now rewrite <- app_assoc, Nat.add_assoc.
      * now apply Forall_app.
      * intros H. rewrite Hpos2 by exact H. lia.
    + cbv zeta. repeat split; auto.
      * intros H. apply Hpos. congruence.
      * intros H. apply Hdev. congruence.
      * intros H. apply Hint. congruence.
      * intros H. assert (Hc : Break term = Break Completed) by congruence.
        destruct (Hend Hc) as [Hgot Hnil].
        unfold next_chunk, f_read in *. cbn [fst] in *.
        rewrite Hdata, Hpos by congruence.
        rewrite Hgot. cbn [List.length]. now rewrite Nat.add_0_r.
Qed.

End StreamingRuns.

Section StreamingFacts.

(** X1: whatever the device and the signals do, the chunks read from the
    recording during the loop are, put end to end, a prefix of the
    recording, and the byte strings written to the device are exactly
    the answers to the chunks that were not empty, in the same order:
    the opcode, the chunk, and zeros up to 60 bytes. *)
Theorem stream_in_order (data : list byte) (es : list Iter) :
  let '(_, t, _) := read_loop es (loop_start data) in
  let got := List.concat (file_reads t) in
  got = firstn (List.length got) data
  /\ ser_writes t = map answer (filter nonempty (file_reads t)).
Proof.
  pose proof (read_loop_stream es (loop_start data) eq_refl) as H.
  destruct (read_loop es (loop_start data)) as [[s t] r].
  cbv zeta in *. destruct H as (Hsplit & Hw & _).
  split; [|exact Hw].
  change (skipn (f_pos (f (loop_start data))) (f_data (f (loop_start data))))
    with data in Hsplit.
  rewrite Hsplit at 1.
  rewrite firstn_app, firstn_all, Nat.sub_diag, firstn_0.
  now rewrite app_nil_r.
Qed.

Lemma answer_length (c : list byte) : len c <= 60 -> len (answer c) = 61.
Proof.
  intros H. pose proof (padded_length c H) as Hp.
  unfold answer, len in *. cbn [List.length]. lia.
Qed.

(** X2: every byte string written to the device during the loop is
    exactly 61 bytes long and starts with the opcode [0x0F]. *)
Theorem every_response_is_61_bytes (data : list byte) (es : list Iter) :
  let '(_, t, _) := read_loop es (loop_start data) in
  Forall (fun w => len w = 61 /\ hd_error w = Some REQUEST) (ser_writes t).
Proof.
  pose proof (read_loop_stream es (loop_start data) eq_refl) as H.
  destruct (read_loop es (loop_start data)) as [[s t] r].
  cbv zeta in *. destruct H as (_ & Hw & Hshort & _).
  rewrite Hw. clear Hw.
  induction (file_reads t) as [|c cs IH]; [constructor|].
  apply Forall_cons_iff in Hshort. destruct Hshort as [Hc Hcs].
  cbn [filter]. destruct (nonempty c); cbn [map]; auto.
  constructor; auto. split; [now apply answer_length|reflexivity].
Qed.

(** X3: the read cursor of the recording never passes the end of the
    file, and unless the loop ended on the device timeout (whose report
    seeks to the end) it stands exactly after the bytes read so far. *)
Theorem cursor_within_file (data : list byte) (es : list Iter) :
  let '(s, t, r) := read_loop es (loop_start data) in
  f_tell (f s) <= f_size (f s)
  /\ f_size (f s) = len data
  /\ (r <> Some DeviceError ->
      f_tell (f s) = len (List.concat (file_reads t))).
Proof.
  pose proof (read_loop_stream es (loop_start data) eq_refl) as H.
  destruct (read_loop es (loop_start data)) as [[s t] r].
  cbv zeta in *.
  destruct H as (Hsplit & _ & _ & Hpos & Hdev & _ & _ & Hdata).
  change (f_pos (f (loop_start data))) with 0%nat in *.
  change (f_data (f (loop_start data))) with data in *.
  cbn [Nat.add skipn] in *.
  assert (Hle : (List.length (List.concat (file_reads t))
                 <= List.length data)%nat).
  { rewrite Hsplit at 1. rewrite length_app. lia. }
  unfold f_tell, f_size, len. rewrite Hdata.
  split; [|split; [reflexivity|]].
  - destruct r as [[| |]|]; try (rewrite Hpos by discriminate; lia).
    rewrite Hdev by reflexivity. lia.
  - intros Hr. now rewrite Hpos.
Qed.

Lemma cursor_within_file_witness :
  snd (read_loop [request] (loop_start (repeat "042"%byte 70)))
    <> Some DeviceError
  /\ f_tell (f (fst (fst (read_loop [request]
                            (loop_start (repeat "042"%byte 70))))))
     = len (List.concat
              (file_reads
                 (snd (fst (read_loop [request]
                              (loop_start (repeat "042"%byte 70))))))).
Proof.
  assert (Hr : snd (read_loop [request] (loop_start (repeat "042"%byte 70)))
               <> Some DeviceError) by (vm_compute; discriminate).
  split; [exact Hr|].
  pose proof (cursor_within_file (repeat "042"%byte 70) [request]) as H.
  destruct (read_loop [request] (loop_start (repeat "042"%byte 70)))
    as [[s t] r].
  exact (proj2 (proj2 H) Hr).
Defined.

Lemma unexpected_pass (e : Iter) (s : Loop) (b : byte) :
  dev e = Some b -> Byte.eqb b REQUEST = false ->
  let '(s', t, fl) := iteration e s in
  ser_writes t = [] /\ file_reads t = []
  /\ latches s' = latches s /\ f s' = f s
  /\ (fl = Next \/ fl = Break Interrupted)
  /\ (fl = Next ->
      In (Print (Unexpected b (latches s) (f_tell (f s)) (inputs s))) t).
Proof.
  intros Hd Hb. unfold iteration, after_command. rewrite Hd, Hb.
  split_iteration; repeat split; auto;
    intros; try discriminate; cbn; auto 10.
Qed.

(** X4: a byte from the device other than [0x0F] is tolerated: the pass
    writes nothing to the device, reads nothing from the recording and
    leaves the frame counter and the file cursor alone; the loop goes on
    after a warning that names the byte, unless the pass is interrupted. *)
Theorem unexpected_byte_tolerated (e : Iter) (s : Loop) (b : byte) :
  dev e = Some b -> b <> REQUEST ->
  let '(s', t, fl) := iteration e s in
  ser_writes t = [] /\ file_reads t = []
  /\ latches s' = latches s /\ f s' = f s
  /\ (fl = Next \/ fl = Break Interrupted)
  /\ (fl = Next ->
      In (Print (Unexpected b (latches s) (f_tell (f s)) (inputs s))) t).
Proof.
  intros Hd Hb. apply unexpected_pass; [exact Hd|].
  destruct (Byte.eqb b REQUEST) eqn:E; [|reflexivity].
  apply Byte.byte_dec_bl in E. contradiction.
Qed.

Lemma unexpected_byte_tolerated_witness :
  dev (mkIter false false (Some "042"%byte) false) = Some "042"%byte
  /\ "042"%byte <> REQUEST
  /\ ser_writes
       (snd (fst (iteration (mkIter false false (Some "042"%byte) false)
                            (loop_start [])))) = [].
Proof.
  assert (Hne : "042"%byte <> REQUEST) by discriminate.
  split; [reflexivity|]. split; [exact Hne|].
  pose proof (unexpected_byte_tolerated
                (mkIter false false (Some "042"%byte) false)
                (loop_start []) "042"%byte eq_refl Hne) as H.
  destruct (iteration (mkIter false false (Some "042"%byte) false)
                      (loop_start [])) as [[s' t] fl].
  exact (proj1 H).
Defined.

End StreamingFacts.

Section SessionFacts.

Lemma thirties_mod_100 (k : Z) :
  (30 * k) mod 100 = 0 -> (30 * k) mod 300 = 0.
Proof.
  intros H.
  pose proof (Z.div_mod (30 * k) 100 ltac:(lia)) as H1.
  pose proof (Z.div_mod k 10 ltac:(lia)) as H2.
  pose proof (Z.mod_pos_bound k 10 ltac:(lia)) as H3.
  assert (Hk : k mod 10 = 0) by lia.
  replace (30 * k) with ((k / 10) * 300) by lia.
  apply Z.mod_mul. lia.
Qed.

(** X5: the stop file is looked for, and removed when found, only at the
    end of a pass that received a byte and left the frame counter a
    multiple of 300 (the counter moves in steps of 30 and the poll
    asks for a multiple of 100); a pass that timed out never looks.
    The pass that removes the file ends the loop as Interrupted. *)
Theorem stop_file_polled_every_300_latches
    (data : list byte) (es : list Iter) (e : Iter) :
  let '(s, _, r) := read_loop es (loop_start data) in
  r = None ->
  let '(s', t, fl) := iteration e s in
  existsb is_stop_remove t = true ->
  dev e <> None /\ latches s' mod 300 = 0 /\ fl = Break Interrupted.
Proof.
  pose proof (read_loop_latches es (loop_start data)) as Hl.
  pose proof (proj1 (read_loop_extra es (loop_start data) eq_refl)) as Hx.
  destruct (read_loop es (loop_start data)) as [[s t0] r].
  cbn [fst snd] in *. intros _.
  pose proof (iteration_stream e s Hx) as Hst.
  pose proof (proj1 (iteration_latches e s)) as Hl1.
  destruct (iteration e s) as [[s' t] fl]. cbn [fst snd] in *.
  destruct Hst as (_ & _ & _ & _ & Hpoll & _).
  intros Hrm. destruct (Hpoll Hrm) as (Hd & Hm & Hfl).
  repeat split; auto.
  change (latches (loop_start data)) with 0 in Hl.
  rewrite Hl1, Hl in *.
  match goal with
  | H : (0 + 30 * ?a + 30 * ?b) mod 100 = 0 |- _ =>
      replace (0 + 30 * a + 30 * b) with (30 * (a + b)) in * by lia
  end.
  now apply thirties_mod_100.
Qed.

Lemma stop_file_polled_every_300_latches_witness :
  snd (read_loop [] (loop_start [])) = None
  /\ existsb is_stop_remove
       (snd (fst (iteration stray_with_stop_file (loop_start [])))) = true
  /\ snd (iteration stray_with_stop_file (loop_start []))
     = Break Interrupted.
Proof.
  split; [reflexivity|]. split; [reflexivity|].
  exact (proj2 (proj2
    (stop_file_polled_every_300_latches [] [] stray_with_stop_file
       eq_refl eq_refl))).
Defined.

Lemma existsb_none {A} (p q : A -> bool) (l : list A) :
  (forall x, p x = true -> q x = false) ->
  forallb p l = true -> existsb q l = false.
Proof.
  intros H. induction l as [|x l IH]; [reflexivity|].
  cbn. intros Hl. apply andb_prop in Hl. destruct Hl as [Hx Hl].
  now rewrite (H x Hx), IH.
Qed.

Lemma flat_map_none {A B} (p : A -> bool) (g : A -> list B) (l : list A) :
  (forall x, p x = true -> g x = []) ->
  forallb p l = true -> flat_map g l = [].
Proof.
  intros H. induction l as [|x l IH]; [reflexivity|].
  cbn. intros Hl. apply andb_prop in Hl. destruct Hl as [Hx Hl].
  now rewrite (H x Hx), IH.
Qed.

Lemma read_loop_no_request (es : list Iter) :
  forall s, extra s = 0 ->
    existsb is_no_request (snd (fst (read_loop es s))) = false.
Proof.
  induction es as [|e es IH]; intros s Hx; cbn [read_loop];
    [reflexivity|].
  pose proof (iteration_stream e s Hx) as Hst.
  pose proof (proj1 (iteration_extra e s Hx)) as Hx1.
  destruct (iteration e s) as [[s1 t1] fl]. cbn [fst snd] in *.
  destruct Hst as (_ & _ & _ & Hno & _).
  destruct fl as [|term]; [|exact Hno].
  specialize (IH s1 Hx1).
  destruct (read_loop es s1) as [[s2 t2] r]. cbn [fst snd] in *.
  now rewrite existsb_app, Hno, IH.
Qed.

Lemma wait_trace_plain (ws : list Wait) (s : Loop) :
  let tw := snd (fst (wait_for_button ws s)) in
  existsb is_no_request tw = false
  /\ flat_map summary_left tw = []
  /\ ser_writes tw = [] /\ file_reads tw = []
  /\ existsb is_ser_close tw = false /\ reset_calls tw = 0%nat.
Proof.
  pose proof (wait_for_button_events ws s) as H. cbv zeta.
  repeat split.
  - apply (existsb_none wait_event); [|exact H].
    now intros [[]| | | | | | | | | | | |].
  - apply (flat_map_none wait_event); [|exact H].
    now intros [[]| | | | | | | | | | | |].
  - apply (flat_map_none wait_event); [|exact H].
    now intros [[]| | | | | | | | | | | |].
  - apply (flat_map_none wait_event); [|exact H].
    now intros [[]| | | | | | | | | | | |].
  - apply (existsb_none wait_event); [|exact H].
    now intros [[]| | | | | | | | | | | |].
  - apply (reset_calls_none wait_event); [|exact H].
    now intros [[]| | | | | | | | | | | |].
Qed.

End SessionFacts.

Section SessionEnd.

Lemma wait_idle (ws : list Wait) :
  forall s,
    forallb idle_wait ws = true -> shutdown_requested s = false ->
    snd (wait_for_button ws s) = false.
Proof.
  induction ws as [|w ws IH]; intros s Hi Hs; cbn [wait_for_button];
    [reflexivity|].
  cbn [forallb] in Hi. apply andb_prop in Hi. destruct Hi as [Hw Hi].
  unfold idle_wait in Hw.
  apply andb_prop in Hw. destruct Hw as [Hw Hkey].
  apply andb_prop in Hw. destruct Hw as [Hsig Hstop].
  apply negb_true_iff in Hsig, Hstop, Hkey.
  unfold deliver. rewrite Hsig, Hstop, Hkey, Hs. cbn [orb].
  specialize (IH s Hi Hs).
  destruct (wait_for_button ws s) as [[s2 t2] d]. exact IH.
Qed.

Ltac trace_split :=
  repeat (rewrite ?ser_writes_app, ?file_reads_app, ?existsb_app,
            ?reset_calls_app, ?flat_map_app, ?in_app_iff).

(** The part of a session that follows the loop, when the loop was left
    with the shutdown flag set or with the cursor at the end of the
    file. *)
Lemma finish_facts (w : World) (port : string) (s : Loop) :
  shutdown_requested s = true \/ f_size (f s) <= f_tell (f s) ->
  let '(t, d) := finish w port s in
  existsb is_no_request t = false
  /\ Forall (fun n => n = 0) (flat_map summary_left t)
  /\ file_reads t = []
  /\ (d = true ->
      ser_writes t = [RESET] :: (if reset_opens w then [[RESET]] else []))
  /\ (d = false ->
      ser_writes t = [] /\ existsb is_ser_close t = false
      /\ reset_calls t = 0%nat /\ In JoyStart t).
Proof.
  intros Hend. unfold finish.
  destruct (deliver (sig_after_loop w) s) as [s0 t0] eqn:Hd.
  assert (H0 : (t0 = [] \/ exists m, t0 = [Print (Note m)])
               /\ f s0 = f s
               /\ (shutdown_requested s0 = false ->
                   shutdown_requested s = false)).
  { unfold deliver, signal_handler in Hd.
    destruct (sig_after_loop w); injection Hd as <- <-; cbn; eauto.
    repeat split; eauto. discriminate. }
  destruct H0 as (Ht0 & Hf0 & Hs0).
  assert (Hz : forall g : File,
             (f_size (f_seek_end g) - f_tell (f_seek_end g)) / 2 = 0).
  { intros g. unfold f_size, f_tell, f_seek_end. cbn.
    now rewrite Z.sub_diag. }
  pose proof (wait_trace_plain (waits w)) as Hwait.
  destruct (shutdown_requested s0) eqn:Hsh; cbn [negb].
  - (* interrupted: no wait *)
    rewrite Hsh. cbn [negb].
    unfold _reset_cy8ckit_device.
    destruct Ht0 as [->|[m ->]]; destruct (reset_opens w); cbn;
      rewrite Hz; repeat split; try discriminate; repeat constructor.
  - specialize (Hs0 eq_refl).
    destruct Hend as [Hend|Hend]; [congruence|].
    assert (Htest : (f_tell (f s0) <? f_size (f_seek_end (f s0))) = false).
    { apply Z.ltb_ge. rewrite Hf0. exact Hend. }
    rewrite Htest. cbn [shutdown_requested set_f]. rewrite Hsh. cbn [negb].
    specialize (Hwait (set_f (f_seek_end (f s0)) s0)). cbv zeta in Hwait.
    destruct (wait_for_button (waits w) (set_f (f_seek_end (f s0)) s0))
      as [[s2 tw] d]. cbn [fst snd] in Hwait.
    destruct Hwait as (Hw1 & Hw2 & Hw3 & Hw4 & Hw5 & Hw6).
    unfold _reset_cy8ckit_device.
    destruct d; destruct Ht0 as [->|[m ->]]; destruct (reset_opens w);
      cbn [app fst]; trace_split; cbn; trace_split;
      rewrite ?Hw1, ?Hw2, ?Hw3, ?Hw4, ?Hw5, ?Hw6, ?Hz; cbn;
      repeat split; try discriminate;
      first [ solve [repeat (first [left; reflexivity | right])]
            | solve [rewrite ?app_nil_r; assumption]
            | solve [repeat constructor] ].
Qed.

End SessionEnd.

Section Sessions.

Lemma loop_end_state (es : list Iter) (data : list byte) :
  let '(s, _, r) := read_loop es (loop_start data) in
  r <> None ->
  shutdown_requested s = true \/ f_size (f s) <= f_tell (f s).
Proof.
  pose proof (read_loop_stream es (loop_start data) eq_refl) as H.
  destruct (read_loop es (loop_start data)) as [[s t] r].
  cbv zeta in H.
  destruct H as (_ & _ & _ & _ & Hdev & Hint & Hdone & Hdata).
  intros Hr. destruct r as [[| |]|]; [| | |congruence].
  - right. specialize (Hdone eq_refl).
    pose proof (next_chunk_length s) as Hlen. rewrite Hdone in Hlen.
    cbn [List.length] in Hlen. unfold f_size, f_tell. lia.
  - left. now apply Hint.
  - right. unfold f_size, f_tell. rewrite Hdev, Hdata by reflexivity. lia.
Qed.

(** X6: the report "device stopped requesting data" is never printed,
    and the session summary always gives 0 as the number of frames
    remaining: both are computed after the cursor has been moved to
    the end of the file. *)
Theorem summary_never_reports_frames_left
    (w : World) (port : string) (movie_path : option string) :
  let t := fst (run_playback w port movie_path) in
  existsb is_no_request t = false
  /\ Forall (fun n => n = 0) (flat_map summary_left t).
Proof.
  cbv zeta. unfold run_playback.
  destruct movie_path as [path|]; [|split; [reflexivity|constructor]].
  destruct (serial_opens w); cbn [negb];
    [|split; [reflexivity|constructor]].
  destruct (ping_reply w) as [b|]; [|split; [reflexivity|constructor]].
  destruct (Byte.eqb b PING); [|split; [reflexivity|constructor]].
  destruct (open_recording w path (is_bz2 path)) as [data|];
    [|split; [reflexivity|constructor]].
  pose proof (loop_end_state (iters w) data) as Hend.
  pose proof (read_loop_no_request (iters w) (loop_start data) eq_refl)
    as Hno.
  pose proof (read_loop_events (iters w) (loop_start data)) as Hev.
  destruct (read_loop (iters w) (loop_start data)) as [[s tl] r].
  cbn [fst snd] in *.
  assert (Hsum : flat_map summary_left tl = []).
  { apply (flat_map_none before_end); [|exact Hev].
    now intros [[]| | | | | | | | | | | |]. }
  destruct r as [term|].
  - pose proof (finish_facts w port s (Hend ltac:(discriminate))) as Hfin.
    destruct (finish w port s) as [te d].
    destruct Hfin as (Hn & Hs & _).
    cbn [fst]. rewrite !existsb_app, !flat_map_app, Hno, Hn, Hsum.
    split; [reflexivity|exact Hs].
  - cbn [fst]. rewrite !existsb_app, !flat_map_app, Hno, Hsum.
    split; [reflexivity|constructor].
Qed.

Lemma ser_writes_cons (e : Event) (t : list Event) :
  ser_writes (e :: t) = written e ++ ser_writes t.
Proof. reflexivity. Qed.

Lemma file_reads_cons (e : Event) (t : list Event) :
  file_reads (e :: t) =
    match e with FileRead _ d => [d] | _ => [] end ++ file_reads t.
Proof. reflexivity. Qed.

(** X7: what a session that returned after the loop has written to the
    device, from first to last: the probe byte, the reset byte, the
    start command, one 61-byte answer per non-empty chunk read from the
    recording, the reset byte again, and once more the reset byte from
    the device reset procedure if that could open the port. *)
Theorem wire_transcript (w : World) (port path : string)
    (t : list Event) (term : Terminal) (l : Z) :
  run_playback w port (Some path) = (t, Some (Finished term l)) ->
  ser_writes t =
    [[PING]; [RESET]; START_COMMAND]
      ++ map answer (filter nonempty (file_reads t))
      ++ [RESET] :: (if reset_opens w then [[RESET]] else []).
Proof.
  unfold run_playback.
  destruct (serial_opens w); cbn [negb]; [|discriminate].
  destruct (ping_reply w) as [b|]; [|discriminate].
  destruct (Byte.eqb b PING); [|discriminate].
  destruct (open_recording w path (is_bz2 path)) as [data|];
    [|discriminate].
  pose proof (loop_end_state (iters w) data) as Hend.
  pose proof (read_loop_stream (iters w) (loop_start data) eq_refl) as Hst.
  destruct (read_loop (iters w) (loop_start data)) as [[s tl] [term'|]];
    [|discriminate].
  cbv zeta in Hst. destruct Hst as (_ & Hw & _).
  pose proof (finish_facts w port s (Hend ltac:(discriminate))) as Hfin.
  destruct (finish w port s) as [te d].
  destruct Hfin as (_ & _ & Hr & Hwr & _).
  destruct d; [|discriminate].
  intros H. injection H as <- _ _.
  rewrite !ser_writes_cons, !file_reads_cons, !ser_writes_app,
    !file_reads_app, Hr, (Hwr eq_refl), Hw.
  cbn [written app]. now rewrite app_nil_r.
Qed.

Lemma wire_transcript_witness :
  ser_writes (fst (run_playback full_world "/dev/ttyACM0" (Some "run.r08")))
    = [[PING]; [RESET]; START_COMMAND]
        ++ map answer
             (filter nonempty
                (file_reads
                   (fst (run_playback full_world "/dev/ttyACM0"
                                      (Some "run.r08")))))
        ++ [[RESET]; [RESET]].
Proof.
  apply (wire_transcript full_world "/dev/ttyACM0" "run.r08"
           (fst (run_playback full_world "/dev/ttyACM0" (Some "run.r08")))
           Completed 60).
  vm_compute. reflexivity.
Defined.

(** X8: after a loop that ended without an interrupt, the session does
    nothing to the device until button B, one of the keys q, Q, b, B or
    a signal arrives: while none does, [run_playback] has not returned,
    the serial channel is still open, the device reset procedure has
    not been entered, and the last thing written to the device is still
    what the loop wrote. *)
Theorem no_reset_before_button (w : World) (port path : string)
    (data : list byte) (s : Loop) (tl : list Event) (term : Terminal) :
  serial_opens w = true ->
  ping_reply w = Some PING ->
  open_recording w path (is_bz2 path) = Some data ->
  read_loop (iters w) (loop_start data) = (s, tl, Some term) ->
  shutdown_requested s = false ->
  sig_after_loop w = false ->
  forallb idle_wait (waits w) = true ->
  let '(t, r) := run_playback w port (Some path) in
  r = None
  /\ existsb is_ser_close t = false
  /\ reset_calls t = 0%nat
  /\ ser_writes t = [[PING]; [RESET]; START_COMMAND] ++ ser_writes tl
  /\ In JoyStart t.
Proof.
  intros Ho Hp Hf Hloop Hs Hsig Hidle.
  pose proof (loop_end_state (iters w) data) as Hend.
  pose proof (read_loop_events (iters w) (loop_start data)) as Hev.
  unfold run_playback. rewrite Ho, Hp, Hf. cbn [negb].
  change (Byte.eqb PING PING) with true. cbv iota.
  rewrite Hloop in *. cbn [fst snd] in Hev.
  pose proof (finish_facts w port s (Hend ltac:(discriminate))) as Hfin.
  assert (Hd : snd (finish w port s) = false).
  { unfold finish, deliver. rewrite Hsig, Hs. cbn [negb].
    cbn [shutdown_requested set_f]. rewrite Hs. cbn [negb].
    pose proof (wait_idle (waits w) (set_f (f_seek_end (f s)) s) Hidle Hs)
      as Hw.
    destruct (wait_for_button (waits w) (set_f (f_seek_end (f s)) s))
      as [[s2 tw] d]. cbn [snd] in Hw. subst d. reflexivity. }
  destruct (finish w port s) as [te d]. cbn [snd] in Hd. subst d.
  destruct Hfin as (_ & _ & _ & _ & Hwait).
  destruct (Hwait eq_refl) as (Hw & Hc & Hr & Hj).
  split; [reflexivity|].
  rewrite !existsb_app, !reset_calls_app, !ser_writes_app, Hw, Hc, Hr.
  rewrite (existsb_none before_end is_ser_close tl);
    [|now intros [[]| | | | | | | | | | | |]|exact Hev].
  rewrite (reset_calls_none before_end tl);
    [|now intros [[]| | | | | | | | | | | |]|exact Hev].
  repeat split; [cbn; now rewrite app_nil_r|].
  apply in_or_app. right. exact Hj.
Qed.

Lemma no_reset_before_button_witness :
  forallb idle_wait (waits waiting_world) = true
  /\ snd (run_playback waiting_world "/dev/ttyACM0" (Some "run.r08")) = None
  /\ reset_calls
       (fst (run_playback waiting_world "/dev/ttyACM0" (Some "run.r08")))
     = 0%nat.
Proof.
  split; [reflexivity|].
  assert (Hloop :
    read_loop (iters waiting_world) (loop_start (repeat "042"%byte 120)) =
      (fst (fst (read_loop (iters waiting_world)
                   (loop_start (repeat "042"%byte 120)))),
       snd (fst (read_loop (iters waiting_world)
                   (loop_start (repeat "042"%byte 120)))),
       Some Completed)) by (vm_compute; reflexivity).
  pose proof (no_reset_before_button waiting_world "/dev/ttyACM0" "run.r08"
                (repeat "042"%byte 120) _ _ Completed
                eq_refl eq_refl eq_refl Hloop
                ltac:(vm_compute; reflexivity) eq_refl eq_refl)
    as H.
  destruct (run_playback waiting_world "/dev/ttyACM0" (Some "run.r08"))
    as [t r].
  destruct H as (Hr & _ & Hn & _). now split.
Defined.

(** X9: the value [run_playback] returns tells how far the session
    got and nothing about how the loop ended: 1 without a recording
    path, 2 when the serial port cannot be opened or the probe is not
    answered with [0xFF], 3 when the recording cannot be opened, and 0
    for every session that entered the loop, a device timeout
    included. *)
Theorem exit_code_by_stage (w : World) (port : string)
    (movie_path : option string) (o : Outcome) :
  snd (run_playback w port movie_path) = Some o ->
  exit_code o =
    match movie_path with
    | None => 1
    | Some path =>
        if negb (serial_opens w) then 2
        else match ping_reply w with
             | Some b =>
                 if Byte.eqb b PING then
                   match open_recording w path (is_bz2 path) with
                   | None => 3
                   | Some _ => 0
                   end
                 else 2
             | None => 2
             end
    end.
Proof.
  unfold run_playback.
  destruct movie_path as [path|]; [|now intros [= <-]].
  destruct (serial_opens w); cbn [negb]; [|now intros [= <-]].
  destruct (ping_reply w) as [b|]; [|now intros [= <-]].
  destruct (Byte.eqb b PING); [|now intros [= <-]].
  destruct (open_recording w path (is_bz2 path)) as [data|];
    [|now intros [= <-]].
  destruct (read_loop (iters w) (loop_start data)) as [[s tl] [term|]];
    [|discriminate].
  destruct (finish w port s) as [te d].
  destruct d; [now intros [= <-]|discriminate].
Qed.

Lemma exit_code_by_stage_witness :
  snd (run_playback
         (mkWorld true (Some PING) (fun _ _ => Some [])
                  (repeat silence 11) false
                  [mkWait false None (Some JsStop)] true)
         "/dev/ttyACM0" (Some "run.r08"))
    = Some (Finished DeviceError 0)
  /\ exit_code (Finished DeviceError 0) = 0.
Proof.
  split; [vm_compute; reflexivity|].
  apply (exit_code_by_stage
           (mkWorld true (Some PING) (fun _ _ => Some [])
                    (repeat silence 11) false
                    [mkWait false None (Some JsStop)] true)
           "/dev/ttyACM0" (Some "run.r08")).
  vm_compute. reflexivity.
Defined.

End Sessions.

Section MenuRuns.

Import Menu.

Lemma navigate_keeps_window (files : list string) (d : Direction)
    (n : Nav) :
  files <> [] -> window_ok files n ->
  window_ok files (fst (navigate true d n)).
Proof.
  intros Hne (Hm & Hi & Hw & Hin).
  assert (Hne' : menu_items n <> []) by now rewrite Hm.
  destruct (navigate_state d n Hne') as (Hi' & Hm' & Hw').
  cbv zeta in Hi', Hw'. rewrite <- Hi' in Hw'.
  rewrite page_start_cases in Hw'. rewrite Hm in *.
  assert (Hlen : 0 < len files) by lia.
  pose proof (Z.mod_pos_bound (idx n + delta d) (len files) Hlen) as Hr.
  rewrite <- Hi' in Hr.
  set (i := idx (fst (navigate true d n))) in *.
  set (w' := window_start (fst (navigate true d n))) in *.
  set (w := window_start n) in *.
  unfold window_ok. fold i w'.
  split; [congruence|]. split; [exact Hr|].
  destruct (Z.ltb_spec i w).
  - destruct (Z.ltb_spec i 8); lia.
  - destruct (Z.leb_spec (w + 8) i).
    + destruct (Z.leb_spec (len files - 8) i); lia.
    + lia.
Qed.

(** X10: from the first draw of the menu on, whatever sequence of up
    and down events arrives, the selection is a valid index, the window
    start is between 0 and the last full page, and the selection is one
    of the 8 lines of the window. *)
Theorem menu_window_invariant (files : list string)
    (ds : list Direction) :
  files <> [] ->
  window_ok files (walk true ds (fst (menu_start true files))).
Proof.
  intros Hne.
  assert (H0 : window_ok files (fst (menu_start true files))).
  { destruct files as [|x l]; [congruence|].
    unfold window_ok.
    change (menu_items (fst (menu_start true (x :: l)))) with (x :: l).
    change (idx (fst (menu_start true (x :: l)))) with 0.
    change (window_start (fst (menu_start true (x :: l)))) with 0.
    unfold len. cbn [List.length]. repeat split; lia. }
  generalize dependent (fst (menu_start true files)).
  induction ds as [|d ds IH]; intros n Hn; [exact Hn|].
  cbn [walk fold_left]. apply IH. now apply navigate_keeps_window.
Qed.

Lemma menu_window_invariant_witness :
  repeat "tasmovies/run.r08" 20 <> []
  /\ window_ok (repeat "tasmovies/run.r08" 20)
       (walk true [Up; Up; Down; Down; Down]
             (fst (menu_start true (repeat "tasmovies/run.r08" 20)))).
Proof.
  assert (Hne : repeat "tasmovies/run.r08" 20 <> []) by discriminate.
  split; [exact Hne|].
  exact (menu_window_invariant _ [Up; Up; Down; Down; Down] Hne).
Defined.

Lemma page_redraw (total w i o : Z) :
  snd (page total w i (Some o)) = (i <? w) || (w + 8 <=? i).
Proof.
  unfold page, window_size. rewrite Z.geb_leb.
  destruct (i <? w); [reflexivity|].
  destruct (w + 8 <=? i); reflexivity.
Qed.

Lemma show_menu_render (a : Attrs) (files : list string) (i o : Z) :
  files <> [] ->
  snd (_show_oled_menu true a files i (Some o)) =
    let st := fst (page (len files) (start_of a) i (Some o)) in
    if snd (page (len files) (start_of a) i (Some o)) then
      [ShowMenuWindow (map basename files) i st]
    else
      UpdateCounterOnly i (len files)
      :: (if (1 <=? o - st + 1) && (o - st + 1 <=? 8)
             && (1 <=? i - st + 1) && (i - st + 1 <=? 8)
          then [MoveSelectionMarker (o - st + 1) (i - st + 1) st]
          else [UpdateMenuSelectionWindow o i st]).
Proof.
  intros Hne. unfold _show_oled_menu. simpl negb. cbv iota.
  destruct files as [|x l]; [congruence|].
  assert (Hlen : len (map basename (x :: l)) = len (x :: l))
    by (unfold len; now rewrite length_map).
  rewrite Hlen.
  assert (Hs : start_of
                 match current_start_idx a with
                 | Some _ => a
                 | None => mkAttrs (Some 0) []
                 end = start_of a)
    by (unfold start_of; destruct (current_start_idx a) eqn:E;
        cbn; now rewrite ?E).
  rewrite Hs.
  destruct (page (len (x :: l)) (start_of a) i (Some o)) as [st full].
  destruct full; reflexivity.
Qed.



End MenuRuns.

Section SupervisorRuns.

Import Supervisor MenuLoop.

(** While the polls find the child alive and nothing asked, the loop
    waits 20 ms per poll and goes on with the polls that follow. *)
Lemma monitor_quiet (quiet rest : list Poll) :
  forallb (fun q => p_alive q && calm_poll q) quiet = true ->
  monitor (quiet ++ rest)
  = (repeat (Nap 20) (List.length quiet) ++ fst (monitor rest),
     snd (monitor rest)).
Proof.
  induction quiet as [|q quiet IH]; intros H; cbn [app].
  - now destruct (monitor rest).
  - cbn [forallb] in H. apply andb_prop in H. destruct H as [Hq H].
    apply andb_prop in Hq. destruct Hq as [Ha Hc].
    unfold calm_poll in Hc.
    apply andb_prop in Hc. destruct Hc as [Hc He].
    apply andb_prop in Hc. destruct Hc as [Hs Hk].
    apply negb_true_iff in Hs, Hk, He.
    cbn [monitor]. rewrite Ha, Hs, Hk, He. cbn [negb orb].
    rewrite (IH H). reflexivity.
Qed.

(** X12: the monitoring loop waits, in steps of 20 ms, through the
    polls that find the child alive and nothing asked, and reacts to
    the first other poll.  If that poll finds the child gone, the loop
    just ends.  Else, if the menu is shutting down, the stop file is
    touched and nothing is sent to the child, whatever key or button
    arrived.  Else, a key or button B having arrived, the stop file is
    touched, the child is sent an interrupt and a terminate request,
    the loop waits 20 ms for each later poll that finds the child
    alive, at most 50 times, and the child is killed exactly when it
    was still alive after all 50. *)
Theorem monitor_reactions (quiet : list Poll) (p : Poll)
    (rest : list Poll) :
  forallb (fun q => p_alive q && calm_poll q) quiet = true ->
  let waited := repeat (Nap 20) (List.length quiet) in
  monitor quiet = (waited, false)
  /\ (p_alive p = false ->
      monitor (quiet ++ p :: rest) = (waited, true))
  /\ (p_alive p = true -> p_shutdown p = true ->
      monitor (quiet ++ p :: rest) = (waited ++ [TouchStopFile], true))
  /\ (p_alive p = true -> p_shutdown p = false ->
      p_ch2 p <> None \/ p_evt2 p = Some JsStop ->
      monitor (quiet ++ p :: rest)
      = (waited ++ [TouchStopFile; SendSigint; Terminate]
           ++ repeat (Nap 20) (Nat.min 50 (p_lingers p))
           ++ (if (50 <? p_lingers p)%nat then [Kill] else []),
         true)).
Proof.
  intros Hq. cbv zeta.
  split.
  { pose proof (monitor_quiet quiet [] Hq) as H.
    rewrite !app_nil_r in H. exact H. }
  split.
  { intros Ha. rewrite (monitor_quiet quiet (p :: rest) Hq).
    cbn [monitor]. rewrite Ha. cbn [negb fst snd].
    now rewrite app_nil_r. }
  split.
  { intros Ha Hs. rewrite (monitor_quiet quiet (p :: rest) Hq).
    cbn [monitor]. now rewrite Ha, Hs. }
  intros Ha Hs Hk. rewrite (monitor_quiet quiet (p :: rest) Hq).
  cbn [monitor]. rewrite Ha, Hs. cbn [negb].
  assert (Hk' : has_key (p_ch2 p) || is_stop (p_evt2 p) = true).
  { destruct Hk as [Hk|Hk].
    - destruct (p_ch2 p); [reflexivity|congruence].
    - rewrite Hk. apply orb_true_r. }
  rewrite Hk'. reflexivity.
Qed.

Lemma monitor_reactions_witness :
  forallb (fun q => p_alive q && calm_poll q)
          [mkPoll true None (Some JsUp) false 0] = true
  /\ monitor [mkPoll true None (Some JsUp) false 0;
              mkPoll true (Some "x"%char) (Some JsStop) true 60;
              mkPoll true None None false 0]
     = ([Nap 20; TouchStopFile], true)
  /\ monitor [mkPoll true None (Some JsUp) false 0;
              mkPoll true None (Some JsStop) false 2;
              mkPoll true None None false 0]
     = ([Nap 20; TouchStopFile; SendSigint; Terminate; Nap 20; Nap 20],
        true).
Proof.
  split; [reflexivity|]. split.
  - exact (proj1 (proj2 (proj2
             (monitor_reactions [mkPoll true None (Some JsUp) false 0]
                (mkPoll true (Some "x"%char) (Some JsStop) true 60)
                [mkPoll true None None false 0] eq_refl)))
             eq_refl eq_refl).
  - exact (proj2 (proj2 (proj2
             (monitor_reactions [mkPoll true None (Some JsUp) false 0]
                (mkPoll true None (Some JsStop) false 2)
                [mkPoll true None None false 0] eq_refl)))
             eq_refl eq_refl (or_intror eq_refl)).
Defined.

Lemma setup_wait_trace (ps : list SetupPoll) :
  Forall (fun a => a = Draw "Select option (w/s + Enter)" \/ a = Nap 20)
         (fst (setup_wait ps)).
Proof.
  induction ps as [|p ps IH]; cbn [setup_wait]; [constructor|].
  destruct (u_shutdown p); [constructor|].
  destruct (is_stop (u_evt p) || key_in (u_ch p) ["q"; "Q"]%char);
    [repeat constructor|].
  destruct (key_in (u_ch p) enter_keys || is_select (u_evt p));
    [constructor|].
  destruct (setup_wait ps) as [t r]. constructor; auto.
Qed.

Lemma attempt_spawns (a : Attempt) (selected : string) :
  In (Popen (default_port (nt a)) selected)
     (fst (playback_attempt a selected)).
Proof.
  unfold playback_attempt, _launch_playback.
  assert (H0 : In (Popen (default_port (nt a)) selected)
                  (Lines "Launching..." (Menu.basename selected)
                   :: fst (remove_marker (stale_marker a) (remove_ok a))
                        ++ [Popen (default_port (nt a)) selected]))
    by (right; apply in_or_app; right; left; reflexivity).
  destruct (popen_error a).
  - cbn [fst]. apply in_or_app. left. exact H0.
  - destruct (monitor (polls a)) as [tm d]. destruct d.
    + destruct (remove_marker (marker_at_end a) (remove_ok a)) as [trm st].
      cbn [fst]. apply in_or_app. left. apply in_or_app. left. exact H0.
    + cbn [fst]. apply in_or_app. left. exact H0.
Qed.

Lemma is_popen_spec (t : list Step) :
  existsb is_popen t = true <-> exists port path, In (Sup (Popen port path)) t.
Proof.
  rewrite existsb_exists. split.
  - intros ([| |[]] & Hin & Hp); try discriminate. eauto.
  - intros (port & path & Hin). eexists. split; [exact Hin|reflexivity].
Qed.

(** X13: at the setup prompt, declining with button B or q does not
    take the user back to the menu: the menu is redrawn and the replay
    is launched all the same.  The launch of the replay is attempted exactly
    when the prompt was left by A, Enter, B or q, and not when the menu
    returned on a shutdown request or is still waiting. *)
Theorem declining_still_launches (a : Attempt) (ps : list SetupPoll)
    (selected : string) :
  let e := snd (setup_wait ps) in
  let t := fst (select_item a ps selected) in
  (existsb is_popen t = true <-> e = Declined \/ e = Accepted)
  /\ (e = Declined ->
      exists pre,
        t = pre ++ Sup (Draw "Select option (w/s + Enter)")
                :: map Sup (fst (playback_attempt a selected))).
Proof.
  cbv zeta. unfold select_item.
  pose proof (setup_wait_trace ps) as Htr.
  assert (Hlast : snd (setup_wait ps) = Declined ->
                  exists pre, fst (setup_wait ps) =
                    pre ++ [Draw "Select option (w/s + Enter)"]).
  { clear Htr. induction ps as [|p ps IH]; cbn [setup_wait];
      [discriminate|].
    destruct (u_shutdown p); [discriminate|].
    destruct (is_stop (u_evt p) || key_in (u_ch p) ["q"; "Q"]%char);
      [intros _; now exists []|].
    destruct (key_in (u_ch p) enter_keys || is_select (u_evt p));
      [discriminate|].
    destruct (setup_wait ps) as [t r]. cbn [fst snd] in *.
    intros H. destruct (IH H) as (pre & ->). now exists (Nap 20 :: pre). }
  destruct (setup_wait ps) as [t e]. cbn [fst snd] in *.
  assert (Hpre : existsb is_popen (Instructions :: Prompt :: map Sup t)
                 = false).
  { cbn [existsb is_popen orb]. clear Hlast.
    induction Htr as [|x l Hx _ IH]; [reflexivity|].
    cbn [map existsb]. rewrite IH. now destruct Hx as [-> | ->]. }
  pose proof (attempt_spawns a selected) as Hsp.
  destruct (playback_attempt a selected) as [tp r]. cbn [fst] in Hsp.
  assert (Hlaunch : existsb is_popen
                      ((Instructions :: Prompt :: map Sup t) ++ map Sup tp)
                    = true).
  { apply is_popen_spec. do 2 eexists. apply in_or_app. right.
    apply in_map. exact Hsp. }
  destruct e; cbn [fst].
  - rewrite Hpre. split; [split; [discriminate|intros [|]; discriminate]|].
    discriminate.
  - rewrite Hlaunch. split; [split; auto|].
    intros _. destruct (Hlast eq_refl) as (pre & ->).
    exists (Instructions :: Prompt :: map Sup pre).
    rewrite map_app. cbn [map app]. now rewrite <- app_assoc.
  - rewrite Hlaunch. split; [split; auto|]. discriminate.
  - rewrite Hpre. split; [split; [discriminate|intros [|]; discriminate]|].
    discriminate.
Qed.

Lemma declining_still_launches_witness :
  snd (setup_wait [mkSetupPoll None (Some JsStop) false]) = Declined
  /\ existsb is_popen
       (fst (select_item calm_attempt
                         [mkSetupPoll None (Some JsStop) false]
                         "tasmovies/run.r08")) = true.
Proof.
  split; [reflexivity|].
  apply (proj2 (proj1 (declining_still_launches calm_attempt
                         [mkSetupPoll None (Some JsStop) false]
                         "tasmovies/run.r08"))).
  left. reflexivity.
Defined.

End SupervisorRuns.

Section JoystickFacts.

Import Joystick.

Variable T : Type.
Variable cooled : T -> T -> bool.
Variable clock : nat -> T.

Lemma frames_ind (P : list byte -> Prop) :
  (forall l, (List.length l < 8)%nat -> P l) ->
  (forall c0 c1 c2 c3 c4 c5 c6 c7 rest,
      P rest -> P (c0 :: c1 :: c2 :: c3 :: c4 :: c5 :: c6 :: c7 :: rest)) ->
  forall l, P l.
Proof.
  intros Hshort Hlong l.
  assert (H : forall n l, (List.length l < n)%nat -> P l).
  { induction n as [|n IH]; intros l0 Hl; [lia|].
    destruct l0 as [|c0 [|c1 [|c2 [|c3 [|c4 [|c5 [|c6 [|c7 rest]]]]]]]];
      try (apply Hshort; cbn; lia).
    apply Hlong. apply IH. cbn in Hl. lia. }
  apply (H (S (List.length l))). lia.
Qed.

Lemma drain_short (l : list byte) (r : Reader T) :
  (List.length l < 8)%nat -> drain cooled clock l r = set_buf l r.
Proof.
  intros H.
  destruct l as [|c0 [|c1 [|c2 [|c3 [|c4 [|c5 [|c6 [|c7 rest]]]]]]]];
    try reflexivity.
  cbn in H. lia.
Qed.

Lemma put_set_buf (ev : JsEvent) (x : list byte) (r : Reader T) :
  _put ev (set_buf x r) = set_buf x (_put ev r).
Proof.
  unfold _put, set_buf. cbn.
  match goal with |- context [if ?c then _ else _] => destruct c end;
    reflexivity.
Qed.

Lemma handle_set_buf (now : T) (fr : Frame) (x : list byte) (r : Reader T) :
  handle cooled now fr (set_buf x r) = set_buf x (handle cooled now fr r).
Proof.
  unfold Joystick.handle. destruct (unpack fr) as [[[tm value] etype] number].
  cbn [_last_nav_time set_buf].
  repeat match goal with
    | |- context [if ?c then _ else _] => destruct c
    end;
    rewrite ?put_set_buf; reflexivity.
Qed.

Lemma drain_set_buf (l x : list byte) :
  forall r : Reader T,
    drain cooled clock l (set_buf x r) = drain cooled clock l r.
Proof.
  induction l using frames_ind; intros r.
  - now rewrite !drain_short by assumption.
  - cbn [Joystick.drain].
    change (tick (set_buf x r)) with (set_buf x (tick r)).
    change (ticks (set_buf x r)) with (ticks r).
    rewrite handle_set_buf. apply IHl.
Qed.

Lemma drain_app (l m : list byte) :
  forall r : Reader T,
    drain cooled clock (l ++ m) r
    = drain cooled clock (buf (drain cooled clock l r) ++ m)
            (drain cooled clock l r).
Proof.
  induction l using frames_ind; intros r.
  - rewrite (drain_short l r) by assumption.
    cbn [buf set_buf]. now rewrite drain_set_buf.
  - cbn [app Joystick.drain]. apply IHl.
Qed.

Lemma drain_leftover (l : list byte) :
  forall r : Reader T, (List.length (buf (drain cooled clock l r)) < 8)%nat.
Proof.
  induction l using frames_ind; intros r.
  - now rewrite drain_short by assumption.
  - cbn [Joystick.drain]. apply IHl.
Qed.

(** X14: the reader frames the byte stream of the device in events of 8
    bytes whatever way the reads cut it: feeding two chunks one after
    the other leaves the reader in the same state as feeding them in
    one piece, and fewer than 8 bytes are ever left waiting. *)
Theorem feed_is_chunking_independent (a b : list byte) (r : Reader T) :
  (List.length (buf r) < 8)%nat ->
  feed cooled clock (a ++ b) r = feed cooled clock b (feed cooled clock a r)
  /\ (List.length (buf (feed cooled clock (a ++ b) r)) < 8)%nat.
Proof.
  intros Hbuf.
  assert (Hfeed : feed cooled clock (a ++ b) r
                  = feed cooled clock b (feed cooled clock a r)).
  { destruct a as [|x a]; [reflexivity|].
    destruct b as [|y b]; [now rewrite app_nil_r|].
    cbn [app Joystick.feed]. rewrite app_comm_cons.
    rewrite app_assoc. apply drain_app. }
  split; [exact Hfeed|].
  unfold Joystick.feed.
  destruct (a ++ b); [exact Hbuf|apply drain_leftover].
Qed.

Lemma plain_type_mask (etype : Z) :
  plain_type etype = Z.land etype (Z.lnot JS_EVENT_INIT).
Proof.
  unfold plain_type.
  destruct (Z.eqb_spec (Z.land etype JS_EVENT_INIT) 0) as [H|H];
    [|reflexivity].
  rewrite <- Z.ldiff_land.
  rewrite <- (Z.lor_ldiff_and etype JS_EVENT_INIT) at 1.
  rewrite H. apply Z.lor_0_r.
Qed.

Lemma put_events (ev : JsEvent) (r : Reader T) :
  events (_put ev r) = events r
  \/ events (_put ev r) = events r ++ [ev]
     /\ (List.length (events r) < 32)%nat.
Proof.
  unfold _put. destruct (Nat.ltb_spec (List.length (events r)) 32);
    [right|left]; auto.
Qed.

(** X15: what a frame queues is settled by its fields.  A press
    (value 1) of button 1 queues [select] and a press of button 0
    queues [stop]; a deflection of axis 1 or 7 below -15000 queues [up]
    and one above 15000 queues [down], once the cooldown has passed;
    each is put at the tail, unless 32 events are waiting, in which
    case it is dropped.  Nothing else queues anything: releases, other
    buttons, other axes, small deflections, deflections within the
    cooldown and other event types leave the queue as it is. *)
Theorem events_queued_by_frame (now : T) (fr : Frame) (r : Reader T) :
  let '(_, value, etype, number) := unpack fr in
  let queues ev :=
    plain_type etype = JS_EVENT_BUTTON /\ value = 1
    /\ (number = 1 /\ ev = JsSelect \/ number = 0 /\ ev = JsStop)
    \/ plain_type etype = JS_EVENT_AXIS
       /\ (number = 1 \/ number = 7)
       /\ cooled now (_last_nav_time r) = true
       /\ (value < -15000 /\ ev = JsUp \/ 15000 < value /\ ev = JsDown) in
  (forall ev, queues ev ->
     events (handle cooled now fr r)
     = if (List.length (events r) <? 32)%nat
       then events r ++ [ev] else events r)
  /\ ((forall ev, ~ queues ev) ->
      events (handle cooled now fr r) = events r).
Proof.
  unfold handle. destruct (unpack fr) as [[[tm value] etype] number].
  cbv zeta.
  assert (Hput : forall ev,
            events (_put ev r)
            = if (List.length (events r) <? 32)%nat
              then events r ++ [ev] else events r).
  { intros ev. unfold _put.
    destruct (List.length (events r) <? 32)%nat; reflexivity. }
  assert (Hab : JS_EVENT_AXIS <> JS_EVENT_BUTTON) by discriminate.
  split.
  - intros ev [(Hb & Hv & Hn)|(Ha & Hn & Hc & Hv)].
    + rewrite Hb, Hv.
      change (JS_EVENT_BUTTON =? JS_EVENT_AXIS) with false.
      change (JS_EVENT_BUTTON =? JS_EVENT_BUTTON) with true.
      cbv iota. destruct Hn as [[-> ->]|[-> ->]]; cbn; apply Hput.
    + rewrite Ha, Hc.
      change (JS_EVENT_AXIS =? JS_EVENT_AXIS) with true. cbv iota.
      assert (Hn' : (number =? 1) || (number =? 7) = true).
      { apply orb_true_iff. destruct Hn as [->| ->]; auto. }
      rewrite Hn', !andb_true_r.
      destruct Hv as [[Hv ->]|[Hv ->]].
      * destruct (Z.ltb_spec value (-15000)); [|lia].
        cbn [set_last events]. apply Hput.
      * destruct (Z.ltb_spec value (-15000)); [lia|].
        destruct (Z.gtb_spec value 15000); [|lia].
        cbn [set_last events]. apply Hput.
  - intros Hno.
    destruct (Z.eqb_spec (plain_type etype) JS_EVENT_AXIS) as [Ha|Ha].
    + destruct ((number =? 1) || (number =? 7)) eqn:Hn; [|reflexivity].
      assert (Hn' : number = 1 \/ number = 7).
      { apply orb_true_iff in Hn. destruct Hn as [Hn|Hn];
          apply Z.eqb_eq in Hn; auto. }
      destruct (cooled now (_last_nav_time r)) eqn:Hc;
        [|rewrite !andb_false_r; reflexivity].
      rewrite !andb_true_r.
      destruct (Z.ltb_spec value (-15000)) as [Hv|Hv].
      { exfalso. apply (Hno JsUp). right. auto 10. }
      destruct (Z.gtb_spec value 15000) as [Hv2|Hv2]; [|reflexivity].
      exfalso. apply (Hno JsDown). right. auto 10.
    + destruct (Z.eqb_spec (plain_type etype) JS_EVENT_BUTTON) as [Hb|Hb];
        [|reflexivity].
      destruct (Z.eqb_spec value 1) as [Hv|Hv];
        [|rewrite !andb_false_r; reflexivity].
      rewrite !andb_true_r.
      destruct (Z.eqb_spec number 1) as [H1|H1].
      { exfalso. apply (Hno JsSelect). left. auto 10. }
      destruct (Z.eqb_spec number 0) as [H0|H0]; [|reflexivity].
      exfalso. apply (Hno JsStop). left. auto 10.
Qed.

(** X16: the INIT flag and the time stamp of an event make no
    difference: two frames with the same value and number whose types
    differ at most in the INIT bit are handled alike. *)
Theorem init_flag_ignored (now : T) (fr fr' : Frame) (r : Reader T) :
  snd (fst (fst (unpack fr))) = snd (fst (fst (unpack fr'))) ->
  snd (unpack fr) = snd (unpack fr') ->
  Z.land (snd (fst (unpack fr))) (Z.lnot JS_EVENT_INIT)
    = Z.land (snd (fst (unpack fr'))) (Z.lnot JS_EVENT_INIT) ->
  handle cooled now fr r = handle cooled now fr' r.
Proof.
  unfold handle.
  destruct (unpack fr) as [[[tm value] etype] number].
  destruct (unpack fr') as [[[tm' value'] etype'] number'].
  cbn [fst snd]. intros -> -> He.
  now rewrite !plain_type_mask, He.
Qed.

(** X17: while the cooldown since the last navigation event has not
    passed, an axis event changes nothing; and an axis event that does
    count restarts the cooldown from its own time, even when the queue
    is full and the event itself is dropped. *)
Theorem axis_cooldown (now : T) (fr : Frame) (r : Reader T) :
  let '(_, value, etype, number) := unpack fr in
  plain_type etype = JS_EVENT_AXIS ->
  (cooled now (_last_nav_time r) = false -> handle cooled now fr r = r)
  /\ (cooled now (_last_nav_time r) = true ->
      (number = 1 \/ number = 7) ->
      (value < -15000 \/ 15000 < value) ->
      _last_nav_time (handle cooled now fr r) = now).
Proof.
  unfold handle. destruct (unpack fr) as [[[tm value] etype] number].
  intros Ha. rewrite Ha. change (JS_EVENT_AXIS =? JS_EVENT_AXIS) with true.
  cbv iota. split.
  - intros ->. rewrite !andb_false_r.
    destruct ((number =? 1) || (number =? 7)); reflexivity.
  - intros -> Hn Hv. rewrite !andb_true_r.
    assert (Hn' : (number =? 1) || (number =? 7) = true).
    { apply orb_true_iff. destruct Hn as [->| ->]; auto. }
    rewrite Hn'.
    destruct (Z.ltb_spec value (-15000)); [reflexivity|].
    destruct (Z.gtb_spec value 15000); [reflexivity|]. lia.
Qed.

Lemma handle_queue (now : T) (fr : Frame) (r : Reader T) :
  (exists new, events (handle cooled now fr r) = events r ++ new)
  /\ (List.length (events (handle cooled now fr r))
      <= Nat.max 32 (List.length (events r)))%nat.
Proof.
  assert (Hid : (exists new, events r = events r ++ new)
                /\ (List.length (events r)
                    <= Nat.max 32 (List.length (events r)))%nat).
  { split; [exists []; now rewrite app_nil_r|apply Nat.le_max_r]. }
  assert (Hput : forall ev,
             (exists new, events (_put ev r) = events r ++ new)
             /\ (List.length (events (_put ev r))
                 <= Nat.max 32 (List.length (events r)))%nat).
  { intros ev. destruct (put_events ev r) as [->|[-> Hlen]]; [exact Hid|].
    split; [now exists [ev]|]. rewrite length_app. cbn [List.length].
    etransitivity; [|apply Nat.le_max_l]. lia. }
  unfold handle. destruct (unpack fr) as [[[tm value] etype] number].
  repeat match goal with
         | |- context [if ?c then _ else _] => destruct c
         end; cbn [set_last events]; auto.
Qed.

Lemma drain_queue (l : list byte) :
  forall r : Reader T,
    (exists new, events (drain cooled clock l r) = events r ++ new)
    /\ (List.length (events (drain cooled clock l r))
        <= Nat.max 32 (List.length (events r)))%nat.
Proof.
  induction l using frames_ind; intros r.
  - rewrite drain_short by assumption. cbn [events set_buf].
    split; [exists []; now rewrite app_nil_r|apply Nat.le_max_r].
  - cbn [Joystick.drain].
    destruct (IHl (handle cooled (clock (ticks r))
                          (mkFrame c0 c1 c2 c3 c4 c5 c6 c7) (tick r)))
      as [(new2 & H2) Hb2].
    destruct (handle_queue (clock (ticks r))
                           (mkFrame c0 c1 c2 c3 c4 c5 c6 c7) (tick r))
      as [(new1 & H1) Hb1].
    cbn [events tick] in H1, Hb1.
    split.
    + exists (new1 ++ new2). now rewrite H2, H1, app_assoc.
    + etransitivity; [exact Hb2|].
      apply Nat.max_lub; [apply Nat.le_max_l|exact Hb1].
Qed.

(** X18: the event queue works first in, first out and is bounded:
    whatever bytes the device delivers, the events already waiting stay
    where they are, new ones are added behind them, a queue that held
    at most 32 events still holds at most 32, and [get_event] hands out
    the oldest. *)
Theorem queue_is_bounded_fifo (chunk : list byte) (r : Reader T) :
  (exists new, events (feed cooled clock chunk r) = events r ++ new)
  /\ (List.length (events (feed cooled clock chunk r))
      <= Nat.max 32 (List.length (events r)))%nat
  /\ fst (get_event r) = hd_error (events r)
  /\ events r = match fst (get_event r) with
                | Some e => e :: events (snd (get_event r))
                | None => []
                end.
Proof.
  split; [|split].
  - destruct chunk; [exists []; now rewrite app_nil_r|].
    apply drain_queue.
  - destruct chunk; [apply Nat.le_max_r|]. apply drain_queue.
  - unfold get_event. destruct (events r); split; reflexivity.
Qed.

End JoystickFacts.

Section JoystickExamples.

Import Joystick.

Lemma feed_is_chunking_independent_witness :
  (List.length (buf fresh_reader) < 8)%nat
  /\ events (feed ms_cooled ms_clock
               (["000"; "000"; "000"; "000"; "001"]
                  ++ ["000"; "001"; "001"])%byte fresh_reader)
     = [JsSelect]
  /\ feed ms_cooled ms_clock
          (["000"; "000"; "000"; "000"; "001"] ++ ["000"; "001"; "001"])%byte
          fresh_reader
     = feed ms_cooled ms_clock ["000"; "001"; "001"]%byte
         (feed ms_cooled ms_clock ["000"; "000"; "000"; "000"; "001"]%byte
               fresh_reader).
Proof.
  assert (H : (List.length (buf fresh_reader) < 8)%nat) by (cbn; lia).
  split; [exact H|]. split; [reflexivity|].
  exact (proj1 (feed_is_chunking_independent Z ms_cooled ms_clock
                  ["000"; "000"; "000"; "000"; "001"]%byte
                  ["000"; "001"; "001"]%byte fresh_reader H)).
Defined.

Lemma events_queued_by_frame_witness :
  events (handle ms_cooled 1000 press_1 fresh_reader) = [JsSelect]
  /\ events (handle ms_cooled 1000 push_up fresh_reader) = [JsUp].
Proof.
  split.
  - exact (proj1 (events_queued_by_frame Z ms_cooled 1000 press_1
                    fresh_reader)
             JsSelect
             (or_introl (conj eq_refl (conj eq_refl
                (or_introl (conj eq_refl eq_refl)))))).
  - exact (proj1 (events_queued_by_frame Z ms_cooled 1000 push_up
                    fresh_reader)
             JsUp
             (or_intror (conj eq_refl (conj (or_introl eq_refl)
                (conj eq_refl (or_introl (conj eq_refl eq_refl))))))).
Defined.

Lemma init_flag_ignored_witness :
  events (handle ms_cooled 1000 press_1_init fresh_reader) = [JsSelect]
  /\ handle ms_cooled 1000 press_1 fresh_reader
     = handle ms_cooled 1000 press_1_init fresh_reader.
Proof.
  split; [reflexivity|].
  exact (init_flag_ignored Z ms_cooled 1000 press_1 press_1_init fresh_reader
           eq_refl eq_refl eq_refl).
Defined.

Lemma axis_cooldown_witness :
  events (handle ms_cooled 1000 push_up fresh_reader) = [JsUp]
  /\ _last_nav_time (handle ms_cooled 1000 push_up fresh_reader) = 1000
  /\ handle ms_cooled 1100 push_up
            (handle ms_cooled 1000 push_up fresh_reader)
     = handle ms_cooled 1000 push_up fresh_reader.
Proof.
  split; [reflexivity|]. split.
  - exact (proj2 (axis_cooldown Z ms_cooled 1000 push_up fresh_reader eq_refl)
             eq_refl (or_introl eq_refl) (or_introl eq_refl)).
  - exact (proj1 (axis_cooldown Z ms_cooled 1100 push_up
                    (handle ms_cooled 1000 push_up fresh_reader) eq_refl)
             eq_refl).
Defined.

End JoystickExamples.

Section ListingFacts.

Import Listing.

Variable lower : string -> string.

Lemma insert_perm {A} (key : A -> string) (x : A) (l : list A) :
  Permutation (insert key x l) (x :: l).
Proof.
  induction l as [|y l IH]; cbn [insert]; [reflexivity|].
  destruct (String.leb (key x) (key y)); [reflexivity|].
  rewrite IH. apply perm_swap.
Qed.

Lemma sort_by_perm {A} (key : A -> string) (l : list A) :
  Permutation (sort_by key l) l.
Proof.
  induction l as [|x l IH]; cbn [sort_by fold_right]; [reflexivity|].
  fold (sort_by key l). rewrite insert_perm. now constructor.
Qed.

Lemma insert_sorted {A} (key : A -> string) (x : A) (l : list A) :
  Sorted (fun a b => String.leb (key a) (key b) = true) l ->
  Sorted (fun a b => String.leb (key a) (key b) = true) (insert key x l).
Proof.
  induction l as [|y l IH]; intros Hs; cbn [insert].
  - repeat constructor.
  - destruct (String.leb (key x) (key y)) eqn:Hxy.
    + constructor; [exact Hs|]. constructor. exact Hxy.
    + apply Sorted_inv in Hs. destruct Hs as [Hs Hhd].
      constructor; [now apply IH|].
      assert (Hyx : String.leb (key y) (key x) = true).
      { destruct (String.leb_total (key x) (key y)); congruence. }
      destruct l as [|z l]; cbn [insert].
      * constructor. exact Hyx.
      * destruct (String.leb (key x) (key z)); constructor;
          [exact Hyx|]. now apply HdRel_inv in Hhd.
Qed.

Lemma sort_by_sorted {A} (key : A -> string) (l : list A) :
  Sorted (fun a b => String.leb (key a) (key b) = true) (sort_by key l).
Proof.
  induction l as [|x l IH]; cbn [sort_by fold_right]; [constructor|].
  now apply insert_sorted.
Qed.

(** X19: the list of recordings holds exactly the entries of the
    [tasmovies] directory whose lower-cased name ends in [.r08], each
    once per occurrence and with the directory put in front, in
    ascending order of their lower-cased file names; it is empty when
    the directory cannot be listed. *)
Theorem replay_files_filtered_and_sorted (script_dir : string)
    (listing : option (list string)) :
  let dir := join script_dir "tasmovies" in
  let files := _list_replay_files lower script_dir listing in
  Sorted (fun a b => String.leb (sort_key lower a) (sort_key lower b) = true)
         files
  /\ Permutation files
       (match listing with
        | Some names => map (join dir) (filter (is_r08 lower) names)
        | None => []
        end)
  /\ (forall p, In p files <->
        exists name names, listing = Some names /\ In name names
          /\ is_r08 lower name = true /\ p = join dir name).
Proof.
  cbv zeta. unfold _list_replay_files.
  split; [apply sort_by_sorted|].
  split; [apply sort_by_perm|].
  intros p. rewrite (Permutation_in' eq_refl (sort_by_perm _ _)).
  destruct listing as [names|].
  - rewrite in_map_iff. split.
    + intros (name & <- & Hin). apply filter_In in Hin.
      destruct Hin as [Hin Hr]. exists name, names. auto.
    + intros (name & names' & [= <-] & Hin & Hr & ->).
      exists name. split; [reflexivity|]. apply filter_In. auto.
  - split; [intros []|]. intros (? & ? & [=] & _).
Qed.

End ListingFacts.

Section DisplayFacts.

Import Display.

Variable upper : string -> string.

Lemma page_selects_app (a b : list Bus) :
  page_selects (a ++ b) = page_selects a ++ page_selects b.
Proof. unfold page_selects. apply flat_map_app. Qed.

Lemma data_bytes_app (a b : list Bus) :
  data_bytes (a ++ b) = data_bytes a ++ data_bytes b.
Proof. unfold data_bytes. apply flat_map_app. Qed.

Lemma page_selects_flat_map {A} (f : A -> list Bus) (l : list A) :
  page_selects (flat_map f l) = flat_map (fun x => page_selects (f x)) l.
Proof.
  induction l as [|x l IH]; cbn [flat_map]; [reflexivity|].
  now rewrite page_selects_app, IH.
Qed.

Lemma data_bytes_flat_map {A} (f : A -> list Bus) (l : list A) :
  data_bytes (flat_map f l) = flat_map (fun x => data_bytes (f x)) l.
Proof.
  induction l as [|x l IH]; cbn [flat_map]; [reflexivity|].
  now rewrite data_bytes_app, IH.
Qed.

Lemma flat_map_nil {A B} (f : A -> list B) (l : list A) :
  (forall x, In x l -> f x = []) -> flat_map f l = [].
Proof.
  induction l as [|x l IH]; intros H; cbn [flat_map]; [reflexivity|].
  rewrite (H x (or_introl eq_refl)), IH; [reflexivity|].
  intros y Hy. apply H. now right.
Qed.

Lemma flat_map_single {A B} (f : A -> list B) (g : A -> B) (l : list A) :
  (forall x, In x l -> f x = [g x]) -> flat_map f l = map g l.
Proof.
  induction l as [|x l IH]; intros H; cbn [flat_map map]; [reflexivity|].
  rewrite (H x (or_introl eq_refl)), IH; [reflexivity|].
  intros y Hy. apply H. now right.
Qed.

Lemma page_selects_bulk (l : list Z) : page_selects (write_data_bulk l) = [].
Proof.
  unfold write_data_bulk. rewrite page_selects_flat_map.
  now apply flat_map_nil.
Qed.

Lemma data_bytes_bulk (l : list Z) : data_bytes (write_data_bulk l) = l.
Proof.
  unfold write_data_bulk, data_bytes.
  induction l as [|x l IH]; cbn; [reflexivity|]. now f_equal.
Qed.

Lemma page_selects_position (page col : Z) :
  0 <= page -> 0 <= col < 128 ->
  page_selects (set_position page col) = [page].
Proof.
  intros Hp Hc. unfold set_position, write_cmd, page_selects.
  cbn [app flat_map].
  assert (H1 : 0 <= Z.land col 15 <= 15).
  { assert (E : Z.land col 15 = col mod 16)
      by (change 15 with (Z.ones 4); now rewrite Z.land_ones).
    rewrite E. assert (0 <= col mod 16 < 16)
      by (apply Z.mod_pos_bound; reflexivity). lia. }
  assert (H2 : 0 <= Z.shiftr col 4 <= 7).
  { rewrite Z.shiftr_div_pow2 by lia. change (2 ^ 4) with 16.
    split; [apply Z.div_pos; lia|].
    apply Z.lt_succ_r. apply Z.div_lt_upper_bound; lia. }
  destruct (Z.leb_spec 176 (176 + page)); [|lia].
  destruct (Z.leb_spec 176 (2 + Z.land col 15)); [lia|].
  destruct (Z.leb_spec 176 (16 + Z.shiftr col 4)); [lia|].
  cbn [app]. f_equal. lia.
Qed.

Lemma data_bytes_position (page col : Z) :
  data_bytes (set_position page col) = [].
Proof. reflexivity. Qed.

Lemma page_selects_char (c : ascii) : page_selects (write_char c) = [].
Proof.
  unfold write_char. destruct (glyph c) as [p|]; [|reflexivity].
  rewrite page_selects_app. fold (write_data_bulk p).
  now rewrite page_selects_bulk.
Qed.

Lemma page_selects_text (text : string) (page col : Z) :
  0 <= page -> 0 <= col < 128 ->
  page_selects (write_text upper text page col) = [page].
Proof.
  intros Hp Hc. unfold write_text.
  rewrite page_selects_app, page_selects_position by assumption.
  rewrite page_selects_flat_map, flat_map_nil; [reflexivity|].
  intros c _. apply page_selects_char.
Qed.

Lemma page_selects_clear_line (page : Z) :
  page_selects (clear_line page)
  = if (0 <=? page) && (page <=? 7) then [page] else [].
Proof.
  unfold clear_line.
  destruct (Z.ltb_spec page 0), (Z.gtb_spec page 7),
    (Z.leb_spec 0 page), (Z.leb_spec page 7); try lia; cbn [orb andb];
    try reflexivity.
  rewrite page_selects_app, page_selects_position, page_selects_bulk by lia.
  reflexivity.
Qed.

Lemma range_In (a b i : Z) : In i (range a b) <-> a <= i < b.
Proof.
  unfold range. rewrite in_map_iff. split.
  - intros (k & <- & Hk). apply in_seq in Hk. lia.
  - intros Hi. exists (Z.to_nat (i - a)). split; [lia|].
    apply in_seq. lia.
Qed.

Lemma range_shift (a n : Z) :
  map (fun i => i - a + 1) (range a (a + n)) = range 1 (n + 1).
Proof.
  unfold range. rewrite map_map.
  replace (a + n - a) with n by lia. replace (n + 1 - 1) with n by lia.
  apply map_ext. intros k. lia.
Qed.

Lemma glyph_shape (c : ascii) (p : list Z) :
  glyph c = Some p ->
  (List.length p <= 5)%nat /\ Forall (fun d => 0 <= d < 128) p.
Proof.
  unfold glyph. destruct (find _ font_8x6) as [e|] eqn:E; [|discriminate].
  intros [= <-]. apply find_some in E. destruct E as [Hin _].
  revert e Hin. apply Forall_forall. unfold font_8x6.
  repeat (constructor;
          [split; [cbn; lia | repeat (constructor; [lia|]); constructor]|]).
  constructor.
Qed.

(** X20: drawing a text sends no command after the three that place
    the cursor; every character of the upper-cased text takes at most
    six columns (none when the font lacks it), and every column byte
    is below 128, so the bottom pixel row of a text line stays dark. *)
Theorem text_takes_six_columns_per_char (text : string) (page col : Z) :
  let t := write_text upper text page col in
  firstn 3 t = set_position page col
  /\ skipn 3 t = map Data (data_bytes t)
  /\ (List.length (data_bytes t)
      <= 6 * String.length (upper text))%nat
  /\ Forall (fun d => 0 <= d < 128) (data_bytes t).
Proof.
  cbv zeta. unfold write_text.
  change (set_position page col ++ ?r)
    with (Cmd (176 + page) :: Cmd (2 + Z.land col 15)
            :: Cmd (16 + Z.shiftr col 4) :: r).
  cbn [firstn skipn data_bytes flat_map app].
  fold (data_bytes (flat_map write_char (list_ascii_of_string (upper text)))).
  split; [reflexivity|].
  generalize (upper text) as s. intros s.
  induction s as [|c s IH]; cbn [list_ascii_of_string flat_map String.length].
  { repeat split; constructor. }
  rewrite data_bytes_app, map_app, length_app, Forall_app.
  destruct IH as (IH1 & IH2 & IH3). rewrite <- IH1.
  assert (Hc : write_char c = map Data (data_bytes (write_char c))
               /\ (List.length (data_bytes (write_char c)) <= 6)%nat
               /\ Forall (fun d => 0 <= d < 128) (data_bytes (write_char c))).
  { unfold write_char. destruct (glyph c) as [p|] eqn:G.
    - apply glyph_shape in G. destruct G as [G1 G2].
      fold (write_data_bulk p). rewrite data_bytes_app, data_bytes_bulk.
      cbn [write_data data_bytes flat_map app].
      rewrite map_app, length_app, Forall_app. cbn [map List.length].
      repeat split; try lia; try assumption.
      repeat constructor; lia.
    - cbn. repeat split; try lia; constructor. }
  destruct Hc as (Hc1 & Hc2 & Hc3). rewrite <- Hc1.
  repeat split; try assumption. lia.
Qed.

Lemma page_selects_menu_line (items : list string) (sel start i : Z) :
  0 <= start -> start <= i < Z.min (start + 8) (len items) ->
  page_selects (menu_line upper items sel start i) = [i - start + 1].
Proof.
  intros Hs Hi. unfold menu_line. cbv zeta.
  destruct (Z.geb_spec i (len items)); [lia|].
  destruct (Z.ltb_spec (i - start + 1) 1); [lia|].
  destruct (Z.gtb_spec (i - start + 1) 8); [lia|].
  cbn [orb].
  destruct (i =? sel); apply page_selects_text; lia.
Qed.

(** X21: a full redraw of the menu blanks pages 0 to 7 only, although
    it asks for lines 1 to 8, and then draws one line per visible item
    on pages 1, 2, ...; with eight visible items the last one is drawn
    on page 8, which is never blanked.  With a window start outside
    the list only the header is drawn. *)
Theorem full_redraw_pages (title : string) (items : list string)
    (selected_idx start_idx : Z) :
  page_selects (show_menu_window upper title items selected_idx start_idx)
  = [0; 0; 0] ++ [1; 2; 3; 4; 5; 6; 7]
    ++ (if (0 <=? start_idx) && (start_idx <? len items)
        then range 1 (Z.min 8 (len items - start_idx) + 1)
        else []).
Proof.
  unfold show_menu_window. cbv zeta.
  rewrite !page_selects_app.
  rewrite page_selects_clear_line, !page_selects_text by lia.
  cbn [Z.leb andb app]. do 3 f_equal.
  rewrite page_selects_flat_map.
  change (range 1 9) with [1; 2; 3; 4; 5; 6; 7; 8].
  cbn [flat_map]. rewrite !page_selects_clear_line.
  cbn [Z.leb Z.compare Pos.compare Pos.compare_cont andb app].
  do 7 f_equal.
  destruct (Z.ltb_spec start_idx 0), (Z.geb_spec start_idx (len items)),
    (Z.leb_spec 0 start_idx), (Z.ltb_spec start_idx (len items));
    try lia; cbn [orb andb]; try reflexivity.
  rewrite page_selects_flat_map.
  rewrite (flat_map_single _ (fun i => i - start_idx + 1)).
  - replace (Z.min (start_idx + 8) (len items))
      with (start_idx + Z.min 8 (len items - start_idx)) by lia.
    now rewrite range_shift.
  - intros i Hi. apply range_In in Hi.
    now apply page_selects_menu_line.
Qed.

(** X22: moving the selection marker does nothing at all unless both
    lines are between 1 and 8 and both stand for an item of the list;
    otherwise it blanks and redraws the old line and then the new one,
    and touches no other page.  Line 8 is redrawn without being
    blanked. *)
Theorem marker_move_pages (items : list string)
    (old_line new_line start_idx : Z) :
  let valid l :=
    (1 <=? l) && (l <=? 8)
    && (0 <=? start_idx + l - 1) && (start_idx + l - 1 <? len items) in
  let touched l := if l <=? 7 then [l; l] else [l] in
  (valid old_line && valid new_line = false ->
   move_selection_marker upper items old_line new_line start_idx = [])
  /\ (valid old_line && valid new_line = true ->
      page_selects
        (move_selection_marker upper items old_line new_line start_idx)
      = touched old_line ++ touched new_line).
Proof.
  cbv zeta. unfold move_selection_marker.
  destruct items as [|f items'].
  { split; [reflexivity|]. intros H. exfalso.
    change (len (@nil string)) with 0 in H.
    destruct (Z.leb_spec 0 (start_idx + old_line - 1)),
      (Z.ltb_spec (start_idx + old_line - 1) 0); try lia;
      rewrite ?andb_false_r in H; discriminate. }
  set (items := f :: items').
  destruct (Z.ltb_spec old_line 1), (Z.gtb_spec old_line 8),
    (Z.ltb_spec new_line 1), (Z.gtb_spec new_line 8),
    (Z.leb_spec 1 old_line), (Z.leb_spec old_line 8),
    (Z.leb_spec 1 new_line), (Z.leb_spec new_line 8); try lia;
    cbn [orb andb]; rewrite ?andb_false_r;
    try (split; [reflexivity | discriminate]).
  destruct (Z.ltb_spec (start_idx + old_line - 1) 0),
    (Z.geb_spec (start_idx + old_line - 1) (len items)),
    (Z.ltb_spec (start_idx + new_line - 1) 0),
    (Z.geb_spec (start_idx + new_line - 1) (len items)),
    (Z.leb_spec 0 (start_idx + old_line - 1)),
    (Z.ltb_spec (start_idx + old_line - 1) (len items)),
    (Z.leb_spec 0 (start_idx + new_line - 1)),
    (Z.ltb_spec (start_idx + new_line - 1) (len items)); try lia;
    cbn [orb andb]; rewrite ?andb_false_r;
    try (split; [reflexivity | discriminate]).
  split; [discriminate|]. intros _.
  rewrite !page_selects_app, !page_selects_clear_line,
    !page_selects_text by lia.
  destruct (Z.leb_spec 0 old_line), (Z.leb_spec 0 new_line); try lia.
  cbn [andb]. destruct (old_line <=? 7), (new_line <=? 7); reflexivity.
Qed.

End DisplayFacts.

Section DisplayExamples.

Import Display.

Lemma marker_move_pages_witness :
  page_selects
    (move_selection_marker (fun s => s) ["a.r08"; "b.r08"; "c.r08"] 1 2 0)
  = [1; 1; 2; 2].
Proof.
  exact (proj2 (marker_move_pages (fun s => s)
                  ["a.r08"; "b.r08"; "c.r08"] 1 2 0) eq_refl).
Defined.

End DisplayExamples.
